(** * ai-sdk-client: the streaming chat-completion orchestrator

  A shallow embedding of
  - [src/utils/json-schema-to-zod.ts]  ([jsonSchemaToZod]),
  - [src/errors/ai-sdk.error.ts]       ([AiSdkError], [fromError]),
  - [src/main/ai-sdk.service.ts]       ([AiSdkService]: the constructor
                                        and [streamMessage]),
  followed by the properties of the prompt assembly, the tool adapter,
  the three reading tiers and the error classification.

  Conventions of the embedding.
  - A JavaScript string is a [string]; each [ascii] stands for one code
    unit, so the strings of the model are those whose code units are below
    256.
  - A plain object is the list of its own enumerable properties in the
    order [Object.keys] enumerates them; a property read falls back on
    [Object.prototype], as the language does.
  - The inputs of [streamMessage] are values: the function never writes to
    them.
  - Time is a clock in milliseconds; reading the two channels takes no
    time on it, so it shows the time since the settlement tier started. *)

From Stdlib Require Import Ascii String.
From stdpp Require Import base tactics option list strings pretty gmap.

Set Warnings "-register-all".

(** ** JavaScript values *)

Module Js.

(** A [number] keeps only what the program can observe of it: whether it
    is [NaN], infinite, or the finite value [mantissa * 2 ^ exponent]. *)
Inductive number :=
| NaN
| Infinite (negative : bool)
| Finite (mantissa exponent : Z).

Inductive value :=
| VUndefined
| VNull
| VBool (b : bool)
| VNum (n : number)
| VStr (s : string)
| VArr (items : list value)
| VObj (props : list (string * value)).

(** A plain object: its own enumerable properties, in enumeration order. *)
Abbreviation object := (list (string * value)).

(** [typeof v] *)
Definition typeof (v : value) : string :=
  match v with
  | VUndefined => "undefined"
  | VNull => "object"
  | VBool _ => "boolean"
  | VNum _ => "number"
  | VStr _ => "string"
  | VArr _ => "object"
  | VObj _ => "object"
  end.

(** [ToBoolean]: what [!v], [v && e] and [v || e] test. *)
Definition truthy (v : value) : bool :=
  match v with
  | VUndefined | VNull => false
  | VBool b => b
  | VNum NaN => false
  | VNum (Infinite _) => true
  | VNum (Finite m _) => negb (m =? 0)%Z
  | VStr s => negb (String.length s =? 0)
  | VArr _ | VObj _ => true
  end.

Definition nullish (v : value) : bool :=
  match v with
  | VUndefined | VNull => true
  | _ => false
  end.

(** The first binding of [k] among the own properties. *)
Fixpoint own (o : object) (k : string) : option value :=
  match o with
  | [] => None
  | (k', v) :: rest => if decide (k' = k) then Some v else own rest k
  end.

Definition keys (o : object) : list string := o.*1.

(** The names every plain object inherits from [Object.prototype]: its
    methods and the [__proto__] accessor. *)
Definition Object_prototype : list string :=
  [ "constructor"; "hasOwnProperty"; "isPrototypeOf";
    "propertyIsEnumerable"; "toLocaleString"; "toString"; "valueOf";
    "__defineGetter__"; "__defineSetter__"; "__lookupGetter__";
    "__lookupSetter__"; "__proto__" ].

(** What a property read yields: a datum, or a member inherited from
    [Object.prototype] (a function, or the prototype itself for
    [__proto__]); an inherited member is never [null] or [undefined]. *)
Inductive slot :=
| Data (v : value)
| Inherited (member : string).

(** [o[k]] on a plain object: the own property, else the inherited
    member, else [undefined]. *)
Definition get (o : object) (k : string) : slot :=
  match own o k with
  | Some v => Data v
  | None => if bool_decide (k ∈ Object_prototype) then Inherited k
            else Data VUndefined
  end.

(** [o[k] = v] on a plain object whose values have type [A]: the own
    property is overwritten in place or appended; an assignment to
    [__proto__] goes to the inherited setter and adds no own property. *)
Fixpoint put {A} (o : list (string * A)) (k : string) (v : A)
    : list (string * A) :=
  match o with
  | [] => [(k, v)]
  | (k', v') :: rest =>
      if decide (k' = k) then (k, v) :: rest else (k', v') :: put rest k v
  end.

Definition assign {A} (o : list (string * A)) (k : string) (v : A)
    : list (string * A) :=
  if decide (k = "__proto__") then o else put o k v.

(** [s.includes(k)] on strings. *)
Fixpoint prefix (p s : string) : bool :=
  match p, s with
  | EmptyString, _ => true
  | String a p', String b s' => if decide (a = b) then prefix p' s' else false
  | String _ _, EmptyString => false
  end.

Fixpoint includes (s k : string) : bool :=
  prefix k s ||
  match s with
  | EmptyString => false
  | String _ s' => includes s' k
  end.

(** [xs.join(sep)] on an array of strings. *)
Fixpoint join (sep : string) (xs : list string) : string :=
  match xs with
  | [] => ""
  | [x] => x
  | x :: rest => x +:+ sep +:+ join sep rest
  end.

(** The white space and line terminators that [trim] strips, among the
    code units below 256: TAB, LF, VT, FF, CR, SP and NBSP. *)
Definition isWhiteSpace (c : ascii) : bool :=
  match c with
  | "009" | "010" | "011" | "012" | "013" | " " | "160" => true
  | _ => false
  end%char.

Fixpoint trimStart (s : string) : string :=
  match s with
  | EmptyString => ""
  | String c s' => if isWhiteSpace c then trimStart s' else s
  end.

Fixpoint trimEnd (s : string) : string :=
  match s with
  | EmptyString => ""
  | String c s' =>
      match trimEnd s' with
      | EmptyString => if isWhiteSpace c then "" else String c ""
      | t => String c t
      end
  end.

Definition trim (s : string) : string := trimEnd (trimStart s).

Fixpoint whitespaceOnly (s : string) : bool :=
  match s with
  | EmptyString => true
  | String c s' => isWhiteSpace c && whitespaceOnly s'
  end.

(** The characters of a string as the entries [Object.entries] lists. *)
Fixpoint chars (s : string) : list value :=
  match s with
  | EmptyString => []
  | String c s' => VStr (String c "") :: chars s'
  end.

Definition indexed (vs : list value) : object :=
  imap (fun i v => (pretty i, v)) vs.

(** [Object.entries(v)]: the own enumerable string-keyed properties. *)
Definition entries (v : value) : object :=
  match v with
  | VObj o => o
  | VArr vs => indexed vs
  | VStr s => indexed (chars s)
  | _ => []
  end.

End Js.

(** ** The validators of the zod library that the program builds

  Zod is an external library.  The program builds one kind of validator,
  [z.object(shape).passthrough()], whose shape maps a property name to
  [z.string()], [z.number()], [z.boolean()], [z.unknown()], a [z.array]
  of one of these, or the [.optional()] of one of these.  [accepts] and
  [safeParse] say when the validation succeeds. *)

Module Zod.
Import Js.

Inductive propertyType :=
| ZodString
| ZodNumber
| ZodBoolean
| ZodUnknown
| ZodArray (element : propertyType)
| ZodOptional (inner : propertyType).

Inductive unknownKeys := strip | passthrough | strict.

Inductive type :=
| ZodObject (shape : list (string * propertyType)) (policy : unknownKeys).

(** [t.safeParse(x).success] for a property validator.  It looks at the
    runtime type of its input and converts nothing: [ZodNumber] accepts
    the numbers other than [NaN], [ZodOptional] accepts [undefined] and
    what its inner validator accepts, and an inherited member is neither
    a string, a number, a boolean, an array nor [undefined]. *)
Fixpoint accepts (t : propertyType) (x : slot) : bool :=
  match t with
  | ZodString => match x with Data (VStr _) => true | _ => false end
  | ZodNumber =>
      match x with
      | Data (VNum NaN) => false
      | Data (VNum _) => true
      | _ => false
      end
  | ZodBoolean => match x with Data (VBool _) => true | _ => false end
  | ZodUnknown => true
  | ZodArray element =>
      match x with
      | Data (VArr vs) => forallb (fun v => accepts element (Data v)) vs
      | _ => false
      end
  | ZodOptional inner =>
      match x with
      | Data VUndefined => true
      | _ => accepts inner x
      end
  end.

(** [t.safeParse(v).success] for an object validator: [v] is a plain
    object, every key of the shape accepts [v[key]], and only the
    [strict] policy minds the keys outside the shape. *)
Definition safeParse (t : type) (v : value) : bool :=
  match t, v with
  | ZodObject shape policy, VObj o =>
      forallb (fun kt => accepts kt.2 (get o kt.1)) shape
      && match policy with
         | strict => forallb (fun k => bool_decide (k ∈ shape.*1)) (keys o)
         | _ => true
         end
  | _, _ => false
  end.

End Zod.

(** ** [src/utils/json-schema-to-zod.ts] *)

Module JsonSchema.
Import Js Zod.

(** A call either returns or throws a [TypeError]. *)
Inductive Fallible (A : Type) :=
| Return (a : A)
| ThrowTypeError (message : string).
Arguments Return {A} a.
Arguments ThrowTypeError {A} message.

#[export] Instance fallible_ret : MRet Fallible := fun A a => Return a.
#[export] Instance fallible_bind : MBind Fallible := fun A B f m =>
  match m with
  | Return a => f a
  | ThrowTypeError msg => ThrowTypeError msg
  end.

(** The four properties the converter reads.  None of them is a member of
    a built-in prototype, so on an array, a string, a number or a boolean
    the read yields [undefined]. *)
Inductive field := type_ | properties_ | required_ | items_.

Definition fieldName (f : field) : string :=
  match f with
  | type_ => "type"
  | properties_ => "properties"
  | required_ => "required"
  | items_ => "items"
  end.

(** [v.f] *)
Definition read (v : value) (f : field) : Fallible value :=
  match v with
  | VUndefined =>
      ThrowTypeError ("Cannot read properties of undefined (reading '"
                      +:+ fieldName f +:+ "')")
  | VNull =>
      ThrowTypeError ("Cannot read properties of null (reading '"
                      +:+ fieldName f +:+ "')")
  | VObj o => Return (default VUndefined (own o (fieldName f)))
  | _ => Return VUndefined
  end.

(** [v === s] for a string [s] *)
Definition strictEq (v : value) (s : string) : bool :=
  match v with
  | VStr s' => bool_decide (s' = s)
  | _ => false
  end.

(** [required.includes(key)]: [Array.prototype.includes] compares with
    the key, [String.prototype.includes] searches it, and no other value
    has the method. *)
Definition requiredIncludes (required : value) (key : string) : Fallible bool :=
  match required with
  | VArr vs => Return (existsb (fun v => strictEq v key) vs)
  | VStr s => Return (includes s key)
  | _ => ThrowTypeError "required.includes is not a function"
  end.

(** [z.object({}).passthrough()] *)
Definition anyObject : type := ZodObject [] passthrough.

(** The [switch (propSchema.type)] of the loop body. *)
Definition zodTypeOf (propSchema : value) : Fallible propertyType :=
  ty ← read propSchema type_;
  if strictEq ty "string" then mret ZodString
  else if strictEq ty "number" then mret ZodNumber
  else if strictEq ty "boolean" then mret ZodBoolean
  else if strictEq ty "array" then
    itemsSchema ← read propSchema items_;
    itemsType ← (if nullish itemsSchema then mret VUndefined
                  else read itemsSchema type_);
    if strictEq itemsType "string" then mret (ZodArray ZodString)
    else if strictEq itemsType "number" then mret (ZodArray ZodNumber)
    else mret (ZodArray ZodUnknown)
  else mret ZodUnknown.

(** The loop over [Object.entries(properties)], filling [zodShape]. *)
Fixpoint buildShape (props : object) (required : value)
    (zodShape : list (string * propertyType))
    : Fallible (list (string * propertyType)) :=
  match props with
  | [] => mret zodShape
  | (key, propSchema) :: rest =>
      zodType ← zodTypeOf propSchema;
      isRequired ← requiredIncludes required key;
      let zodType := if (isRequired : bool) then zodType else ZodOptional zodType in
      buildShape rest required (assign zodShape key zodType)
  end.

Definition jsonSchemaToZod (schema : value) : Fallible type :=
  if negb (truthy schema) || negb (bool_decide (typeof schema = "object"))
  then mret anyObject
  else
    ty ← read schema type_;
    if strictEq ty "object" then
      properties ← read schema properties_;
      if truthy properties then
        required ← read schema required_;
        let required := if truthy required then required else VArr [] in
        zodShape ← buildShape (entries properties) required [];
        mret (ZodObject zodShape passthrough)
      else mret anyObject
    else mret anyObject.

End JsonSchema.

(** ** [src/errors/ai-sdk.error.ts] *)

Module Errors.
Import Js.

(** Anything a [throw] or a rejection can carry: a native [Error], an
    [AiSdkError] (the classified error), or any other value. *)
Inductive thrown :=
| NativeError (name message : string) (stack : option string)
| AiSdkError (message : string) (originalError : thrown) (context : value)
    (stack : string)
| Thrown (v : value).

(** What the program needs from the engine: [String(v)] for a value
    that is not an error, and the stack trace attached to an error
    created with a given message. *)
Class Engine := {
  String_ : value -> string;
  captureStack : string -> string
}.

Definition newline : string := String "010" "".

(** [e instanceof Error]; an [AiSdkError] extends [Error]. *)
Definition instanceofError (e : thrown) : bool :=
  match e with
  | NativeError _ _ _ | AiSdkError _ _ _ _ => true
  | Thrown _ => false
  end.

Definition isAiSdkError (e : thrown) : bool :=
  match e with
  | AiSdkError _ _ _ _ => true
  | _ => false
  end.

(** [e.message] and [e.stack] of an [Error]. *)
Definition messageOf (e : thrown) : string :=
  match e with
  | NativeError _ message _ => message
  | AiSdkError message _ _ _ => message
  | Thrown _ => ""
  end.

Definition stackOf (e : thrown) : option string :=
  match e with
  | NativeError _ _ stack => stack
  | AiSdkError _ _ _ stack => Some stack
  | Thrown _ => None
  end.

Definition causeOf (e : thrown) : thrown :=
  match e with
  | AiSdkError _ originalError _ _ => originalError
  | _ => Thrown VUndefined
  end.

Section WithEngine.
Context `{Engine}.

(** [new AiSdkError(message, originalError, context)] *)
Definition new (message : string) (originalError : thrown)
    (context : value) : thrown :=
  let stack := captureStack message in
  let stack :=
    match stackOf originalError with
    | Some original =>
        if instanceofError originalError && truthy (VStr original)
        then stack +:+ newline +:+ "Original error: " +:+ original
        else stack
    | None => stack
    end in
  AiSdkError message originalError context stack.

(** [AiSdkError.fromError(error, context)] *)
Definition fromError (error : thrown) (context : value) : thrown :=
  if isAiSdkError error then error
  else
    let message :=
      match error with
      | Thrown v => String_ v
      | _ => messageOf error
      end in
    new message error context.


End WithEngine.

End Errors.

(** ** [src/main/ai-sdk.service.ts] *)

Module Service.
Import Js Zod JsonSchema Errors.

(** *** The request *)

Inductive MessageType := USER | COPILOT.

Record ChatMessage := {
  type : MessageType;
  msgText : string
}.

Record ToolDefinition := {
  name : string;
  description : string;
  parameters : value
}.

Record SendMessageParams := {
  userId : string;
  text : string;
  conversationHistory : option (list ChatMessage);
  systemPrompt : option string;
  tools : option (list ToolDefinition);
  contextData : option object
}.

Record AiSdkConfig := {
  baseURL : option string;
  apiKey : string;
  model : string;
  maxTokens : option nat;
  temperature : option number
}.

(** *** The prompt: [CoreMessage] of the SDK *)

Inductive Role := user | assistant | tool.

Record ToolCallPart := {
  toolCallId : string;
  toolName : string;
  args : value
}.

Record ToolResultPart := {
  resultCallId : string;
  resultToolName : string;
  result : value
}.

Inductive Content :=
| Text (s : string)
| ToolCalls (parts : list ToolCallPart)
| ToolResults (parts : list ToolResultPart).

Record CoreMessage := {
  role : Role;
  content : Content
}.

(** *** The tools handed to the provider *)

Record CallableTool := {
  toolDescription : string;
  toolParameters : Zod.type;
  execute : unit -> slot
}.

Record StreamTextArgs := {
  argModel : string;
  argSystem : option string;
  argMessages : list CoreMessage;
  argTools : option (gmap string CallableTool);
  argMaxTokens : option nat;
  argTemperature : option number;
  argMaxSteps : nat
}.

(** *** What the provider gives back *)

(** An asynchronous iterable: the items it yields, then its end. *)
Inductive StreamEnd :=
| StreamDone
| StreamThrows (reason : thrown).

Record Stream (A : Type) := {
  items : list A;
  finish : StreamEnd
}.
Arguments items {A} _.
Arguments finish {A} _.

Inductive StreamPart :=
| TextDelta (textDelta : string)
| ErrorPart (error : thrown)
| OtherPart (partType : string).

(** A settleable value.  [settledAt] is the time on the clock at which it
    settles (0 when it is settled already, or is no promise at all). *)
Inductive Promise (A : Type) :=
| Fulfilled (settledAt : N) (v : A)
| Rejected (settledAt : N) (reason : thrown)
| Pending.
Arguments Fulfilled {A} settledAt v.
Arguments Rejected {A} settledAt reason.
Arguments Pending {A}.

(** [finalText n] is what the [n]-th read of the property [result.text]
    yields, counted from 0: the property may be a getter.  A resolved
    [undefined] or [null] is [None]. *)
Record StreamTextResult := {
  textStream : Stream string;
  fullStream : Stream StreamPart;
  finishReason : Promise (option string);
  finalText : nat -> Promise (option string);
  toolCalls : Promise (option (list value))
}.

Inductive Invocation :=
| Invoked (r : StreamTextResult)
| InvocationFails (reason : thrown).

(** *** The generator

    A run threads the clock, the fragments yielded so far, the number of
    events taken from [fullStream] and the number of reads of
    [result.text]; it ends normally, by a [throw], or never. *)

Record World := {
  clock : N;
  yielded : list string;
  consumed : nat;
  textReads : nat
}.

Inductive Completion (A : Type) :=
| Normal (a : A)
| Throw (t : thrown)
| Hang.
Arguments Normal {A} a.
Arguments Throw {A} t.
Arguments Hang {A}.

Definition Gen (A : Type) : Type := World -> World * Completion A.

#[export] Instance gen_ret : MRet Gen := fun A a w => (w, Normal a).
#[export] Instance gen_bind : MBind Gen := fun A B f m w =>
  match m w with
  | (w', Normal a) => f a w'
  | (w', Throw t) => (w', Throw t)
  | (w', Hang) => (w', Hang)
  end.

Definition throw {A} (t : thrown) : Gen A := fun w => (w, Throw t).

(** [try { body } catch (e) { handler }] *)
Definition tryCatch {A} (body : Gen A) (handler : thrown -> Gen A) : Gen A :=
  fun w =>
    match body w with
    | (w', Throw t) => handler t w'
    | r => r
    end.

Definition emit (fragments : list string) (w : World) : World :=
  {| clock := clock w; yielded := yielded w ++ fragments;
     consumed := consumed w; textReads := textReads w |}.

Definition taken (n : nat) (w : World) : World :=
  {| clock := clock w; yielded := yielded w;
     consumed := consumed w + n; textReads := textReads w |}.

Definition textRead (w : World) : World :=
  {| clock := clock w; yielded := yielded w;
     consumed := consumed w; textReads := S (textReads w) |}.

Definition atTime (t : N) (w : World) : World :=
  {| clock := t; yielded := yielded w;
     consumed := consumed w; textReads := textReads w |}.

(** [yield s] *)
Definition yield (s : string) : Gen unit := fun w => (emit [s] w, Normal ()).

(** One more event taken from [fullStream]. *)
Definition takeEvent : Gen unit := fun w => (taken 1 w, Normal ()).

(** The expression [result.text]. *)
Definition readText (r : StreamTextResult) : Gen (Promise (option string)) :=
  fun w => (textRead w, Normal (finalText r (textReads w))).

Definition setClock (t : N) : Gen unit := fun w => (atTime t w, Normal ()).

Definition currentTime : Gen N := fun w => (w, Normal (clock w)).

(** [await new Promise((resolve) => setTimeout(resolve, ms))] *)
Definition sleep (ms : N) : Gen unit :=
  t ← currentTime; setClock (t + ms)%N.

(** [await p]: waits as long as it takes. *)
Definition await {A} (p : Promise A) : Gen A :=
  t ← currentTime;
  match p with
  | Fulfilled settledAt v => setClock (N.max t settledAt);; mret v
  | Rejected settledAt reason => setClock (N.max t settledAt);; throw reason
  | Pending => fun w => (w, Hang)
  end.

(** [await Promise.race([p, timer])] where the timer rejects with
    [timeout] after [ms] milliseconds: [p] wins when it settles before
    the deadline. *)
Definition awaitRace {A} (p : Promise A) (ms : N) (timeout : thrown)
    : Gen A :=
  t ← currentTime;
  match p with
  | Fulfilled settledAt v =>
      if bool_decide (settledAt < t + ms)%N
      then setClock (N.max t settledAt);; mret v
      else setClock (t + ms)%N;; throw timeout
  | Rejected settledAt reason =>
      if bool_decide (settledAt < t + ms)%N
      then setClock (N.max t settledAt);; throw reason
      else setClock (t + ms)%N;; throw timeout
  | Pending => setClock (t + ms)%N;; throw timeout
  end.

Definition start : World :=
  {| clock := 0%N; yielded := []; consumed := 0; textReads := 0 |}.

(** *** The prompt assembly (lines 35-79) *)

Definition historyTurn (msg : ChatMessage) : CoreMessage :=
  {| role := match type msg with USER => user | COPILOT => assistant end;
     content := Text (msgText msg) |}.

Definition userTurn (text : string) : CoreMessage :=
  {| role := user; content := Text text |}.

Definition preFetchedId (toolName : string) : string :=
  "pre-fetched-" +:+ toolName.

Definition preFetchedCall (entry : string * value) : ToolCallPart :=
  {| toolCallId := preFetchedId entry.1;
     toolName := entry.1;
     args := VObj [] |}.

Definition preFetchedResult (entry : string * value) : CoreMessage :=
  {| role := tool;
     content := ToolResults
       [ {| resultCallId := preFetchedId entry.1;
            resultToolName := entry.1;
            result := entry.2 |} ] |}.

(** The statements of [streamMessage] that fill [messages], in their
    order: the history, [messages.push] of the user text, and, under
    [contextData && Object.keys(contextData).length > 0], the push of the
    assistant turn and the [forEach] pushing one tool turn per entry. *)
Definition assembleMessages (params : SendMessageParams)
    : list CoreMessage :=
  let messages := historyTurn <$> default [] (conversationHistory params) in
  let messages := messages ++ [userTurn (text params)] in
  match contextData params with
  | Some contextData =>
      if bool_decide (0 < length (keys contextData)) then
        let toolCalls := preFetchedCall <$> contextData in
        let messages :=
          messages ++ [{| role := assistant; content := ToolCalls toolCalls |}] in
        foldl (fun messages entry => messages ++ [preFetchedResult entry])
              messages contextData
      else messages
  | None => messages
  end.

(** *** The tool adapter (lines 87-113) *)

Definition sentinel : value :=
  VObj [("error", VStr "Data should be pre-fetched by Chat Service")].

(** The body of [execute]: it reads [contextData?.[toolDef.name]]. *)
Definition executeBody (contextData : option object) (toolName : string)
    : slot :=
  let toolData :=
    match contextData with
    | Some o => get o toolName
    | None => Data VUndefined
    end in
  match toolData with
  | Data VNull | Data VUndefined => Data sentinel
  | _ => toolData
  end.

(** [Object.fromEntries]: a later entry overwrites an earlier one. *)
Definition fromEntries {A} (entries : list (string * A)) : gmap string A :=
  foldl (fun m entry => <[entry.1 := entry.2]> m) ∅ entries.

Definition toolEntry (contextData : option object) (toolDef : ToolDefinition)
    : Fallible (string * CallableTool) :=
  zodSchema ← jsonSchemaToZod (parameters toolDef);
  mret (name toolDef,
        {| toolDescription := description toolDef;
           toolParameters := zodSchema;
           execute := fun _ => executeBody contextData (name toolDef) |}).

(** [tools.map(...)], left to right; the first exception ends it. *)
Fixpoint toolEntries (contextData : option object)
    (tools : list ToolDefinition) : Fallible (list (string * CallableTool)) :=
  match tools with
  | [] => mret []
  | toolDef :: rest =>
      entry ← toolEntry contextData toolDef;
      entries ← toolEntries contextData rest;
      mret (entry :: entries)
  end.

Definition aiSdkTools (params : SendMessageParams)
    : Fallible (option (gmap string CallableTool)) :=
  match tools params with
  | Some tools =>
      entries ← toolEntries (contextData params) tools;
      mret (Some (fromEntries entries))
  | None => mret None
  end.

(** *** The three reading tiers (lines 115-240) *)

(** [text && text.trim().length] *)
Definition hasText (text : option string) : bool :=
  match text with
  | Some s => truthy (VStr s) && negb (String.length (trim s) =? 0)
  | None => false
  end.

(** [finishReason || "unknown"] *)
Definition orUnknown (finishReason : option string) : string :=
  match finishReason with
  | Some s => if truthy (VStr s) then s else "unknown"
  | None => "unknown"
  end.

(** [xs?.length || 0] *)
Definition lengthOr0 {A} (xs : option (list A)) : nat :=
  match xs with
  | Some xs => length xs
  | None => 0
  end.

(** [contextData ? Object.keys(contextData).join(", ") : "none"] *)
Definition contextKeys (contextData : option object) : string :=
  match contextData with
  | Some o => join ", " (keys o)
  | None => "none"
  end.

(** [e instanceof Error ? e.message : otherwise] *)
Definition messageOr (otherwise : string) (e : thrown) : string :=
  if instanceofError e then messageOf e else otherwise.

Section WithEngine.
Context `{Engine}.

Definition timeoutError (what : string) : thrown :=
  new ("Timeout waiting for result." +:+ what) (Thrown VUndefined) VUndefined.

(** [for await (const chunk of result.textStream)] *)
Fixpoint readTextStream (chunks : list string) (finish : StreamEnd)
    (chunkCount : nat) : Gen nat :=
  match chunks with
  | [] =>
      match finish with
      | StreamDone => mret chunkCount
      | StreamThrows reason => throw reason
      end
  | chunk :: rest =>
      yield chunk;;
      readTextStream rest finish (S chunkCount)
  end.

(** [for await (const part of result.fullStream)]: the loop leaves at
    the first [error] part with the classified error in [streamError]. *)
Fixpoint readFullStream (parts : list StreamPart) (finish : StreamEnd)
    (chunkCount : nat) : Gen (nat * option thrown) :=
  match parts with
  | [] =>
      match finish with
      | StreamDone => mret (chunkCount, None)
      | StreamThrows reason => throw reason
      end
  | part :: rest =>
      takeEvent;;
      match part with
      | ErrorPart error =>
          mret (chunkCount, Some (fromError error VUndefined))
      | TextDelta textDelta =>
          yield textDelta;;
          readFullStream rest finish (S chunkCount)
      | OtherPart _ => readFullStream rest finish chunkCount
      end
  end.

(** The secondary tier (lines 139-157). *)
Definition secondaryTier (r : StreamTextResult) : Gen nat :=
  '(chunkCount, streamError) ←
    readFullStream (items (fullStream r)) (finish (fullStream r)) 0;
  match streamError with
  | Some streamError => throw (fromError streamError VUndefined)
  | None => mret chunkCount
  end.

Definition noTextMessage (finalToolCalls : list value)
    (finishReason : option string) : string :=
  "AI SDK called tools but did not generate text. ToolCalls: "
  +:+ pretty (length finalToolCalls)
  +:+ ", FinishReason: " +:+ orUnknown finishReason.

Definition requestShape (messages : list CoreMessage)
    (params : SendMessageParams) : string :=
  "Messages: " +:+ pretty (length messages)
  +:+ ", Tools: " +:+ pretty (lengthOr0 (tools params))
  +:+ ", ContextData keys: " +:+ contextKeys (contextData params).

(** The three races of the settlement tier (lines 163-194). *)
Definition settlementRaces (r : StreamTextResult)
    : Gen (option string * option string * option (list value)) :=
  finishReason ← awaitRace (finishReason r) 5000%N (timeoutError "finishReason");
  textPromise ← readText r;
  finalText ← awaitRace textPromise 30000%N (timeoutError "text");
  finalToolCalls ← awaitRace (toolCalls r) 30000%N (timeoutError "toolCalls");
  mret (finishReason, finalText, finalToolCalls).

(** The inner [try] of the grace branch (lines 208-217). *)
Definition delayedTextBody (r : StreamTextResult)
    (finalToolCalls : list value) (finishReason : option string)
    : Gen nat :=
  textPromise ← readText r;
  delayedText ← await textPromise;
  if hasText delayedText then
    yield (default "" delayedText);;
    mret 1
  else
    throw (new (noTextMessage finalToolCalls finishReason)
               (Thrown VUndefined) VUndefined).

(** Its [catch] (lines 218-221). *)
Definition delayedTextCatch (finalToolCalls : list value)
    (finishReason : option string) (delayedError : thrown) : Gen nat :=
  throw (new (noTextMessage finalToolCalls finishReason
              +:+ ", Error: " +:+ messageOr "Unknown" delayedError)
             delayedError VUndefined).

(** The grace period and the second read of the text (lines 203-221). *)
Definition delayedText (r : StreamTextResult) (finalToolCalls : list value)
    (finishReason : option string) : Gen nat :=
  sleep 1000%N;;
  tryCatch (delayedTextBody r finalToolCalls finishReason)
           (delayedTextCatch finalToolCalls finishReason).

Definition emptyStreamMessage (messages : list CoreMessage)
    (params : SendMessageParams) (finishReason : option string)
    (finalToolCalls : option (list value)) : string :=
  "AI SDK stream completed without generating any chunks or text. "
  +:+ requestShape messages params
  +:+ ", FinishReason: " +:+ orUnknown finishReason
  +:+ ", ToolCalls: " +:+ pretty (lengthOr0 finalToolCalls).

(** The [try] of the settlement tier (lines 163-225). *)
Definition settlementBody (messages : list CoreMessage)
    (params : SendMessageParams) (r : StreamTextResult) : Gen nat :=
  '(finishReason, finalText, finalToolCalls) ← settlementRaces r;
  if hasText finalText then
    yield (default "" finalText);;
    mret 1
  else if bool_decide (0 < lengthOr0 finalToolCalls) then
    delayedText r (default [] finalToolCalls) finishReason
  else
    throw (new (emptyStreamMessage messages params finishReason
                                   finalToolCalls)
               (Thrown VUndefined) VUndefined).

Definition settlementFailureMessage (messages : list CoreMessage)
    (params : SendMessageParams) (resultError : thrown) : string :=
  "AI SDK stream completed without generating any chunks. "
  +:+ requestShape messages params
  +:+ ". Error getting final result: "
  +:+ messageOr "Unknown error" resultError.

(** Its [catch] (lines 226-232). *)
Definition settlementCatch (messages : list CoreMessage)
    (params : SendMessageParams) (resultError : thrown) : Gen nat :=
  throw (new (settlementFailureMessage messages params resultError)
             resultError VUndefined).

(** The settlement tier (lines 160-233); it returns [chunkCount]. *)
Definition settlementTier (messages : list CoreMessage)
    (params : SendMessageParams) (r : StreamTextResult) : Gen nat :=
  tryCatch (settlementBody messages params r)
           (settlementCatch messages params).

(** The body of the outer [try] (lines 120-233). *)
Definition tiers (messages : list CoreMessage) (params : SendMessageParams)
    (invocation : Invocation) : Gen unit :=
  r ← match invocation with
      | Invoked r => mret r
      | InvocationFails reason => throw reason
      end;
  chunkCount ← readTextStream (items (textStream r)) (finish (textStream r)) 0;
  chunkCount ← (if bool_decide (chunkCount = 0) then secondaryTier r
                 else mret chunkCount);
  if bool_decide (chunkCount = 0) then
    settlementTier messages params r;; mret ()
  else mret ().

(** The outer [catch] (lines 234-240). *)
Definition outerCatch (messages : list CoreMessage)
    (params : SendMessageParams) (error : thrown) : Gen unit :=
  let contextInfo := requestShape messages params in
  let errorStack := if instanceofError error then stackOf error else None in
  let fullMessage :=
    "AI SDK stream error. " +:+ contextInfo +:+ ". "
    +:+ default "" errorStack in
  throw (fromError error (VStr fullMessage)).

Definition streamTextArgs (config : AiSdkConfig) (params : SendMessageParams)
    (aiSdkTools : option (gmap string CallableTool)) : StreamTextArgs :=
  {| argModel := model config;
     argSystem := systemPrompt params;
     argMessages := assembleMessages params;
     argTools := aiSdkTools;
     argMaxTokens := maxTokens config;
     argTemperature := temperature config;
     argMaxSteps := 5 |}.

(** [streamMessage(params)] against a provider [streamText]. *)
Definition streamMessage (config : AiSdkConfig)
    (streamText : StreamTextArgs -> Invocation)
    (params : SendMessageParams) : Gen unit :=
  let messages := assembleMessages params in
  match aiSdkTools params with
  | ThrowTypeError message =>
      throw (NativeError "TypeError" message (Some (captureStack message)))
  | Return aiSdkTools =>
      tryCatch
        (tiers messages params
               (streamText (streamTextArgs config params aiSdkTools)))
        (outerCatch messages params)
  end.

(** What the caller observes when it drains the generator. *)
Definition run (g : Gen unit) : World * Completion unit := g start.

End WithEngine.

End Service.

(** ** The vocabulary of the properties

  The notions in which the properties below are stated: what the
  specification calls the synthetic turns, a silent channel, a value that
  settles in time, a message that states a count and a tag, a rejected
  object.  None of them is part of the program; the theorems compare them
  with it. *)

Module Spec.
Import Js Zod JsonSchema Errors Service.

(** The synthetic turns: none when the context data is absent or empty,
    else one assistant turn with a tool call per key, followed by one
    tool-result turn per key. *)
Definition syntheticTurns (contextData : option object) : list CoreMessage :=
  match contextData with
  | Some ((_ :: _) as o) =>
      {| role := assistant; content := ToolCalls (preFetchedCall <$> o) |}
      :: (preFetchedResult <$> o)
  | _ => []
  end.

(** The last declaration of a list that carries a given name. *)
Definition lastNamed (tools : list ToolDefinition) (n : string)
    : option ToolDefinition :=
  last (filter (fun toolDef => name toolDef = n) tools).

(** The callable tool of a declaration whose schema converts to
    [zodSchema]. *)
Definition toolFor (contextData : option object) (toolDef : ToolDefinition)
    (zodSchema : Zod.type) : CallableTool :=
  {| toolDescription := description toolDef;
     toolParameters := zodSchema;
     execute := fun _ => executeBody contextData (name toolDef) |}.

(** The schema of a declaration converts: [jsonSchemaToZod] returns. *)
Definition convertible (toolDef : ToolDefinition) : Prop :=
  exists zodSchema, jsonSchemaToZod (parameters toolDef) = Return zodSchema.

(** The text fragments among the events of the secondary channel. *)
Definition deltasOf (parts : list StreamPart) : list string :=
  omap (fun part => match part with
                    | TextDelta textDelta => Some textDelta
                    | _ => None
                    end) parts.

Definition isErrorPart (part : StreamPart) : bool :=
  match part with
  | ErrorPart _ => true
  | _ => false
  end.

(** The provider answered and both channels ended without a fragment and
    without an error: the settlement tier is entered. *)
Definition silent (r : StreamTextResult) : Prop :=
  textStream r = {| items := []; finish := StreamDone |}
  /\ deltasOf (items (fullStream r)) = []
  /\ Forall (fun part => isErrorPart part = false) (items (fullStream r))
  /\ finish (fullStream r) = StreamDone.

(** The world in which the settlement tier starts after silent
    channels: the events of the secondary channel have been taken. *)
Definition afterChannels (r : StreamTextResult) : World :=
  taken (length (items (fullStream r))) start.


(** The three races of the settlement tier, started at time 0, are won
    by the three values: the finish reason settles before 5000, the text
    within 30000 of the end of the first race, the tool invocations
    within 30000 of the end of the second; [t] is the time at which the
    last race ends. *)
Definition settledInTime (r : StreamTextResult) (finishReason' : option string)
    (text' : option string) (toolCalls' : option (list value)) (t : N)
    : Prop :=
  exists t1 t2 t3,
    finishReason r = Fulfilled t1 finishReason'
    /\ (t1 < 5000)%N
    /\ finalText r 0 = Fulfilled t2 text'
    /\ (t2 < t1 + 30000)%N
    /\ toolCalls r = Fulfilled t3 toolCalls'
    /\ (t3 < N.max t1 t2 + 30000)%N
    /\ t = N.max (N.max t1 t2) t3.

(** A whitespace-only text replaced by the empty text. *)
Definition blank (text : option string) : option string :=
  match text with
  | Some s => Some (if whitespaceOnly s then "" else s)
  | None => None
  end.

Definition mapPromise {A B} (f : A -> B) (p : Promise A) : Promise B :=
  match p with
  | Fulfilled settledAt v => Fulfilled settledAt (f v)
  | Rejected settledAt reason => Rejected settledAt reason
  | Pending => Pending
  end.

(** The same provider answer with every whitespace-only final text
    replaced by the empty text. *)
Definition blankTexts (r : StreamTextResult) : StreamTextResult :=
  {| textStream := textStream r;
     fullStream := fullStream r;
     finishReason := finishReason r;
     finalText := fun n => mapPromise blank (finalText r n);
     toolCalls := toolCalls r |}.

Definition blanked (invocation : Invocation) : Invocation :=
  match invocation with
  | Invoked r => Invoked (blankTexts r)
  | InvocationFails reason => InvocationFails reason
  end.



(** *** Schemas *)

(** An own property of a schema, [undefined] when it has none or is no
    plain object. *)
Definition part (schema : value) (k : string) : value :=
  match schema with
  | VObj o => default VUndefined (own o k)
  | _ => VUndefined
  end.

(** An object-shaped schema: a plain object whose [type] is ["object"]
    and that has [properties]. *)
Definition objectShaped (schema : value) : bool :=
  match schema with
  | VObj _ => strictEq (part schema "type") "object"
              && truthy (part schema "properties")
  | _ => false
  end.

(** The declared properties, and the required list ([[]] when absent). *)
Definition declared (schema : value) : object :=
  entries (part schema "properties").

Definition requiredOf (schema : value) : value :=
  if truthy (part schema "required") then part schema "required"
  else VArr [].

(** The schemas on which the converter throws: object-shaped, with a
    property schema that is [null] or [undefined], or with a property and
    a [required] that is neither an array nor a string. *)
Definition illFormed (schema : value) : bool :=
  objectShaped schema
  && (existsb (fun kp => nullish kp.2) (declared schema)
      || (bool_decide (declared schema <> [])
          && match requiredOf schema with
             | VArr _ | VStr _ => false
             | _ => true
             end)).

(** A property schema declares one of the four checked types. *)
Definition typed (propSchema : value) : bool :=
  strictEq (part propSchema "type") "string"
  || strictEq (part propSchema "type") "number"
  || strictEq (part propSchema "type") "boolean"
  || strictEq (part propSchema "type") "array".

Definition isString (v : value) : bool :=
  match v with VStr _ => true | _ => false end.

Definition isNumber (v : value) : bool :=
  match v with VNum NaN => false | VNum _ => true | _ => false end.

Definition isBoolean (v : value) : bool :=
  match v with VBool _ => true | _ => false end.

(** The runtime type of what was read matches the declared type; an
    array also matches its declared item type, when that is [string] or
    [number].  A property schema of another type matches everything. *)
Definition conforms (propSchema : value) (x : slot) : bool :=
  let declaredType := part propSchema "type" in
  if strictEq declaredType "string" then
    match x with Data v => isString v | _ => false end
  else if strictEq declaredType "number" then
    match x with Data v => isNumber v | _ => false end
  else if strictEq declaredType "boolean" then
    match x with Data v => isBoolean v | _ => false end
  else if strictEq declaredType "array" then
    match x with
    | Data (VArr vs) =>
        let itemType := part (part propSchema "items") "type" in
        if strictEq itemType "string" then forallb isString vs
        else if strictEq itemType "number" then forallb isNumber vs
        else true
    | _ => false
    end
  else true.

Definition isRequired (required : list value) (k : string) : bool :=
  existsb (fun v => strictEq v k) required.

Definition isUndefined (x : slot) : bool :=
  match x with Data VUndefined => true | _ => false end.

(** A declared property passes: what was read conforms, or the property
    is not required and nothing was read. *)
Definition passes (required : list value) (kp : string * value) (x : slot)
    : bool :=
  conforms kp.2 x || (negb (isRequired required kp.1) && isUndefined x).

(** The validator rejects: some declared property of a checked type is
    present with a value that does not conform, or is required and
    missing.  The name [__proto__] is never checked. *)
Definition rejects (schema : value) (required : list value) (o : object)
    : Prop :=
  exists k propSchema,
    (k, propSchema) ∈ declared schema
    /\ k <> "__proto__"
    /\ typed propSchema = true
    /\ ((get o k <> Data VUndefined /\ conforms propSchema (get o k) = false)
        \/ (isRequired required k = true /\ get o k = Data VUndefined)).

(** The schemas for which the rejected objects are characterised: every
    property schema is an object or another non-null value, the property
    names are distinct, and [required] is absent or an array. *)
Definition wellFormed (schema : value) (required : list value) : Prop :=
  objectShaped schema = true
  /\ NoDup (declared schema).*1
  /\ Forall (fun kp => nullish kp.2 = false) (declared schema)
  /\ requiredOf schema = VArr required.

End Spec.

(** ** Inputs used to exercise the program *)

Module Sample.
Import Js Zod JsonSchema Errors Service.

(** [String(v)] is given for the primitives the sample runs convert. *)
Definition engine : Engine :=
  {| String_ := fun v =>
       match v with
       | VStr s => s
       | VUndefined => "undefined"
       | VNull => "null"
       | VBool true => "true"
       | VBool false => "false"
       | _ => "[object Object]"
       end;
     captureStack := fun message => "Error: " +:+ message |}.

Definition config : AiSdkConfig :=
  {| baseURL := Some "https://api.openai.com/v1"; apiKey := "key";
     model := "gpt-4"; maxTokens := Some 1000;
     temperature := Some (Finite 7 (-3)) |}.

Definition one : value := VNum (Finite 1 0).

(** [{ text: "hi", contextData: { toolA: { x: 1 } } }] *)
Definition withContext : SendMessageParams :=
  {| userId := "user-123"; text := "hi"; conversationHistory := None;
     systemPrompt := None; tools := None;
     contextData := Some [("toolA", VObj [("x", one)])] |}.

(** [{ text: "hi" }] *)
Definition plain : SendMessageParams :=
  {| userId := "user-123"; text := "hi"; conversationHistory := None;
     systemPrompt := None; tools := None; contextData := None |}.

(** Two declarations of [getPrice], and one of [getNews]. *)
Definition getPriceV1 : ToolDefinition :=
  {| name := "getPrice"; description := "first";
     parameters := VObj [("type", VStr "object");
                         ("properties", VObj [("symbol", VObj [("type", VStr "string")])]);
                         ("required", VArr [VStr "symbol"])] |}.

Definition getNews : ToolDefinition :=
  {| name := "getNews"; description := "news"; parameters := VUndefined |}.

Definition getPriceV2 : ToolDefinition :=
  {| name := "getPrice"; description := "second"; parameters := VObj [] |}.

Definition duplicated : SendMessageParams :=
  {| userId := "user-123"; text := "hi"; conversationHistory := None;
     systemPrompt := None;
     tools := Some [getPriceV1; getNews; getPriceV2];
     contextData := Some [("getPrice", one)] |}.

(** A tool named like a member of [Object.prototype], and an empty
    context data: [{ tools: [{ name: "toString", ... }], contextData: {} }]. *)
Definition inheritedName : SendMessageParams :=
  {| userId := "user-123"; text := "hi"; conversationHistory := None;
     systemPrompt := None;
     tools := Some [ {| name := "toString"; description := "";
                        parameters := VObj [] |} ];
     contextData := Some [] |}.

Definition emptyStream {A} : Stream A :=
  {| items := []; finish := StreamDone |}.

(** Both channels empty, the final text is ["Final text"], and the
    finish reason never settles. *)
Definition finishReasonHangs : StreamTextResult :=
  {| textStream := emptyStream;
     fullStream := emptyStream;
     finishReason := Pending;
     finalText := fun _ => Fulfilled 0 (Some "Final text");
     toolCalls := Fulfilled 0 (Some []) |}.

(** Both channels empty and the three values settled at once. *)
Definition settled (finishReason' : option string)
    (texts : nat -> option string) (toolCalls' : list value)
    : StreamTextResult :=
  {| textStream := emptyStream;
     fullStream := emptyStream;
     finishReason := Fulfilled 0 finishReason';
     finalText := fun n => Fulfilled 0 (texts n);
     toolCalls := Fulfilled 0 (Some toolCalls') |}.

(** [{ type: "object", properties: { a: null } }] *)
Definition nullPropertySchema : value :=
  VObj [("type", VStr "object"); ("properties", VObj [("a", VNull)])].

(** [{ type: "object", properties: { u: { type: "integer" } },
       required: ["u"] }] *)
Definition requiredInteger : value :=
  VObj [("type", VStr "object");
        ("properties", VObj [("u", VObj [("type", VStr "integer")])]);
        ("required", VArr [VStr "u"])].

(** [{ type: "object",
       properties: { name: { type: "string" },
                     tags: { type: "array", items: { type: "number" } } },
       required: ["name"] }] *)
Definition nameAndTags : value :=
  VObj [("type", VStr "object");
        ("properties",
         VObj [("name", VObj [("type", VStr "string")]);
               ("tags", VObj [("type", VStr "array");
                              ("items", VObj [("type", VStr "number")])])]);
        ("required", VArr [VStr "name"])].

Definition streamError : thrown := NativeError "Error" "Stream error" None.


(** Nothing at all: no fragment, no text, no tool invocation. *)
Definition nothing : StreamTextResult :=
  settled (Some "stop") (fun _ => Some "") [].

(** The text is ["Final text"] and everything settles at once. *)
Definition finalTextOnly : StreamTextResult :=
  settled (Some "stop") (fun _ => Some "Final text") [].


(** One tool invocation, an empty text, and a finish reason rejected
    with the string ["String error"]. *)
Definition finishReasonRejected : StreamTextResult :=
  {| textStream := emptyStream;
     fullStream := emptyStream;
     finishReason := Rejected 0 (Thrown (VStr "String error"));
     finalText := fun _ => Fulfilled 0 (Some "");
     toolCalls := Fulfilled 0 (Some [VObj [("toolName", VStr "getCryptoPrice")]]) |}.

Definition answers (r : StreamTextResult) : StreamTextArgs -> Invocation :=
  fun _ => Invoked r.

End Sample.

(** ** The rest of the two classes

  [getContext] of [src/errors/ai-sdk.error.ts] and the constructor of
  [AiSdkService] (lines 15-28 of [src/main/ai-sdk.service.ts]). *)

Module Construction.
Import Js Errors Service.


(** An optional string as the value the program tests. *)
Definition optional (s : option string) : value :=
  match s with
  | Some s => VStr s
  | None => VUndefined
  end.

(** What [openai(modelId, { baseURL, apiKey })] is given. *)
Record LanguageModel := {
  modelId : string;
  settingsBaseURL : value;
  settingsApiKey : value
}.

Record AiSdkService := {
  serviceConfig : AiSdkConfig;
  serviceModel : LanguageModel
}.

Section WithEngine.
Context `{Engine}.

(** [new AiSdkService(config)]: [inl] is what the constructor throws. *)
Definition construct (config : AiSdkConfig) : thrown + AiSdkService :=
  if negb (truthy (optional (baseURL config))) then
    inl (new "baseURL is required" (Thrown VUndefined) VUndefined)
  else if negb (truthy (VStr (apiKey config))) then
    inl (new "apiKey is required" (Thrown VUndefined) VUndefined)
  else
    inr {| serviceConfig := config;
           serviceModel := {| modelId := model config;
                              settingsBaseURL := optional (baseURL config);
                              settingsApiKey := VStr (apiKey config) |} |}.

End WithEngine.

End Construction.

(** ** Further vocabulary *)

Module Notions.
Import Js Zod JsonSchema Errors Service.


(** The same request sent for another user. *)
Definition forUser (userId' : string) (params : SendMessageParams)
    : SendMessageParams :=
  {| userId := userId'; text := text params;
     conversationHistory := conversationHistory params;
     systemPrompt := systemPrompt params;
     tools := tools params;
     contextData := contextData params |}.

(** [{ type: "object", properties, required }] *)
Definition objectSchema (properties : object) (required : list value)
    : value :=
  VObj [("type", VStr "object"); ("properties", VObj properties);
        ("required", VArr required)].

(** Two property schemas declare the same type and, for an array, the
    same item type; they may differ in everything else ([enum],
    [minimum], [format], nested [properties], ...). *)
Definition sameType (propSchema1 propSchema2 : value) : Prop :=
  nullish propSchema1 = false
  /\ nullish propSchema2 = false
  /\ Spec.part propSchema1 "type" = Spec.part propSchema2 "type"
  /\ Spec.part (Spec.part propSchema1 "items") "type"
     = Spec.part (Spec.part propSchema2 "items") "type".

(** Two lists of declared properties with the same names in the same
    order and, name by name, the same declared types. *)
Definition sameTypes (properties1 properties2 : object) : Prop :=
  Forall2 (fun kp1 kp2 => kp1.1 = kp2.1 /\ sameType kp1.2 kp2.2)
          properties1 properties2.

(** The run raised the error that the [catch] of the settlement tier
    builds around [inner], at time [t] and without a fragment. *)
Definition raisesAround `{Engine} (out : World * Completion unit)
    (params : SendMessageParams) (inner : thrown) (t : N) : Prop :=
  exists w e,
    out = (w, Throw e)
    /\ isAiSdkError e = true
    /\ causeOf e = inner
    /\ messageOf e
       = "AI SDK stream completed without generating any chunks. "
         +:+ requestShape (assembleMessages params) params
         +:+ ". Error getting final result: "
         +:+ (if instanceofError inner then messageOf inner
              else "Unknown error")
    /\ yielded w = []
    /\ clock w = t.

End Notions.

(** ** Further inputs *)

Module Inputs.
Import Js Zod JsonSchema Errors Service.

Definition socketClosed : thrown :=
  NativeError "Error" "socket closed" (Some "Error: socket closed").

(** The text channel yields two fragments; the event channel would
    yield an error. *)
Definition streaming : StreamTextResult :=
  {| textStream := {| items := ["Hello"; " world"]; finish := StreamDone |};
     fullStream := {| items := [ErrorPart Sample.streamError];
                      finish := StreamDone |};
     finishReason := Pending;
     finalText := fun _ => Fulfilled 0 (Some "Hello world");
     toolCalls := Pending |}.


Definition events : list StreamPart :=
  [OtherPart "tool-call"; TextDelta "A"; OtherPart "tool-result";
   TextDelta "B"; OtherPart "finish"].

(** An empty text channel and an event channel with two text deltas. *)
Definition deltas : StreamTextResult :=
  {| textStream := Sample.emptyStream;
     fullStream := {| items := events; finish := StreamDone |};
     finishReason := Pending;
     finalText := fun _ => Pending;
     toolCalls := Pending |}.



(** A tool whose schema has a [null] property schema, declared after a
    tool that converts. *)
Definition brokenTool : SendMessageParams :=
  {| userId := "user-123"; text := "hi"; conversationHistory := None;
     systemPrompt := None;
     tools := Some [ Sample.getNews;
                     {| name := "broken"; description := "";
                        parameters := Sample.nullPropertySchema |} ];
     contextData := None |}.

(** Pre-fetched data for [getPrice]: the number 0. *)
Definition zeroPrice : SendMessageParams :=
  {| userId := "user-123"; text := "hi"; conversationHistory := None;
     systemPrompt := None;
     tools := Some [Sample.getPriceV1];
     contextData := Some [("getPrice", VNum (Finite 0 0))] |}.

(** The final text is in hand and the finish reason is rejected. *)
Definition rejectedFinishReason : StreamTextResult :=
  {| textStream := Sample.emptyStream;
     fullStream := Sample.emptyStream;
     finishReason := Rejected 10 socketClosed;
     finalText := fun _ => Fulfilled 0 (Some "Final text");
     toolCalls := Fulfilled 0 (Some []) |}.

Definition noBaseURL : AiSdkConfig :=
  {| baseURL := None; apiKey := ""; model := "gpt-4";
     maxTokens := None; temperature := None |}.

End Inputs.

Import Js Zod JsonSchema Errors Service.

(** * Properties *)

(** ** The prompt assembly *)

Section Assembly.

Lemma foldl_push {A B} (f : A -> B) (l : list A) (acc : list B) :
  foldl (fun ms x => ms ++ [f x]) acc l = acc ++ (f <$> l).
Proof.
  revert acc. induction l as [|x l IH]; intros acc; simpl.
  - by rewrite app_nil_r.
  - by rewrite IH, <- app_assoc.
Qed.

(** The program's pushes produce the history turns, the user turn and
    the synthetic turns, in this order. *)
Lemma assembleMessages_eq params :
  assembleMessages params
  = (historyTurn <$> default [] (conversationHistory params))
    ++ userTurn (text params) :: Spec.syntheticTurns (contextData params).
Proof.
  unfold assembleMessages, Spec.syntheticTurns.
  destruct (contextData params) as [[|entry o]|]; simpl; try done.
  rewrite foldl_push, <- !app_assoc. done.
Qed.

Lemma syntheticTurns_nil contextData :
  Spec.syntheticTurns contextData = []
  <-> contextData = None \/ contextData = Some [].
Proof.
  destruct contextData as [[|entry o]|]; simpl; split; auto; try done.
  intros [?|?]; discriminate.
Qed.

Lemma syntheticTurns_last contextData m :
  last (Spec.syntheticTurns contextData) = Some m -> role m = tool.
Proof.
  destruct contextData as [[|entry o]|]; simpl; try done.
  intros Hlast%last_Some_elem_of.
  change (m ∈ preFetchedResult <$> (entry :: o)) in Hlast.
  apply list_elem_of_fmap in Hlast as (e & -> & _). done.
Qed.

Lemma assembleMessages_after_user params :
  drop (S (length (default [] (conversationHistory params))))
       (assembleMessages params)
  = Spec.syntheticTurns (contextData params).
Proof.
  rewrite assembleMessages_eq.
  set (history := default [] (conversationHistory params)).
  rewrite <- (length_fmap historyTurn history) at 1.
  rewrite cons_middle, app_assoc.
  rewrite drop_app_length'; [done|].
  rewrite length_app; simpl; lia.
Qed.

(** C1, as the code has it.  The assembled prompt is the history, turn by
    turn and in its order, each entry as a user or an assistant turn with
    its text copied, then the new user message, then the synthetic turns.
    The user message sits right after the history; it is the last turn
    exactly when there are no synthetic turns, that is when the context
    data is absent or empty; otherwise the synthetic assistant turn and
    the tool-result turns come after it. *)
Theorem C1_assembled_prompt params :
  let history := default [] (conversationHistory params) in
  let messages := assembleMessages params in
  messages = (historyTurn <$> history)
             ++ userTurn (text params)
             :: Spec.syntheticTurns (contextData params)
  /\ (forall i msg, history !! i = Some msg ->
        messages !! i
        = Some {| role := match type msg with
                          | USER => user
                          | COPILOT => assistant
                          end;
                  content := Text (msgText msg) |})
  /\ messages !! length history
     = Some {| role := user; content := Text (text params) |}
  /\ drop (S (length history)) messages
     = Spec.syntheticTurns (contextData params)
  /\ (Spec.syntheticTurns (contextData params) = []
      <-> contextData params = None \/ contextData params = Some [])
  /\ (last messages = Some (userTurn (text params))
      <-> contextData params = None \/ contextData params = Some []).
Proof.
  intros history messages. subst messages.
  rewrite assembleMessages_eq. fold history.
  split_and!.
  - done.
  - intros i msg Hi.
    rewrite lookup_app_l by (rewrite length_fmap; by eapply lookup_lt_Some).
    by rewrite list_lookup_fmap, Hi.
  - rewrite <- (length_fmap historyTurn history).
    by rewrite list_lookup_middle.
  - unfold history. rewrite <- assembleMessages_eq.
    apply assembleMessages_after_user.
  - apply syntheticTurns_nil.
  - rewrite <- syntheticTurns_nil. rewrite last_app_cons, last_cons.
    destruct (last (Spec.syntheticTurns _)) as [m|] eqn:Hlast.
    + split.
      * intros [= ->]. by apply syntheticTurns_last in Hlast.
      * intros Hnil. by rewrite Hnil in Hlast.
    + split; [|done]. intros _. by apply last_None.
Qed.

(** C1 as stated fails: with [contextData = { toolA: { x: 1 } }] the
    prompt is the user turn, the assistant tool-call turn and the
    tool-result turn, so the user message is the first turn and the
    synthetic turns come after it. *)
Lemma C1_user_turn_not_last :
  assembleMessages Sample.withContext
  = [ {| role := user; content := Text "hi" |};
      {| role := assistant;
         content := ToolCalls [ {| toolCallId := "pre-fetched-toolA";
                                   toolName := "toolA";
                                   args := VObj [] |} ] |};
      {| role := tool;
         content := ToolResults
           [ {| resultCallId := "pre-fetched-toolA";
                resultToolName := "toolA";
                result := VObj [("x", Sample.one)] |} ] |} ]
  /\ last (assembleMessages Sample.withContext)
     <> Some (userTurn (text Sample.withContext)).
Proof. split; [reflexivity | discriminate]. Qed.

(** C9.  For a non-empty context data the turns after the user turn are
    one assistant turn and then only tool turns: the assistant turn has
    one tool call per key, in the order of the keys, with empty arguments
    and the call id [pre-fetched-<key>]; the i-th tool turn carries the
    i-th key's value under the same call id; so there are as many tool
    turns as keys and every tool result refers to a call of that
    assistant turn. *)
Theorem C9_synthetic_turns_consistent params o :
  contextData params = Some o ->
  o <> [] ->
  exists calls results,
    drop (S (length (default [] (conversationHistory params))))
         (assembleMessages params)
    = {| role := assistant; content := ToolCalls calls |} :: results
    /\ length calls = length (keys o)
    /\ length results = length (keys o)
    /\ (forall i k v, o !! i = Some (k, v) ->
          calls !! i = Some {| toolCallId := "pre-fetched-" +:+ k;
                               toolName := k;
                               args := VObj [] |}
          /\ results !! i
             = Some {| role := tool;
                       content := ToolResults
                         [ {| resultCallId := "pre-fetched-" +:+ k;
                              resultToolName := k;
                              result := v |} ] |})
    /\ (forall m, m ∈ results ->
          exists part call,
            role m = tool
            /\ content m = ToolResults [part]
            /\ call ∈ calls
            /\ toolCallId call = resultCallId part
            /\ toolName call = resultToolName part).
Proof.
  intros Hcd Hne.
  rewrite assembleMessages_after_user, Hcd.
  destruct o as [|entry o]; [done|]. clear Hne.
  set (o' := entry :: o).
  change (Spec.syntheticTurns (Some o'))
    with ({| role := assistant; content := ToolCalls (preFetchedCall <$> o') |}
          :: (preFetchedResult <$> o')).
  clearbody o'.
  exists (preFetchedCall <$> o'), (preFetchedResult <$> o').
  unfold keys. rewrite !length_fmap.
  split_and!; try done.
  - intros i k v Hi. by rewrite !list_lookup_fmap, Hi.
  - intros m (e & -> & He)%list_elem_of_fmap.
    eexists _, (preFetchedCall e). split_and!; try done.
    by apply list_elem_of_fmap_2.
Qed.

Lemma C9_synthetic_turns_witness :
  exists calls results,
    drop 1 (assembleMessages Sample.withContext)
    = {| role := assistant; content := ToolCalls calls |} :: results
    /\ length calls = 1
    /\ length results = 1
    /\ (forall i k v, [("toolA", VObj [("x", Sample.one)])] !! i = Some (k, v) ->
          calls !! i = Some {| toolCallId := "pre-fetched-" +:+ k;
                               toolName := k;
                               args := VObj [] |}
          /\ results !! i
             = Some {| role := tool;
                       content := ToolResults
                         [ {| resultCallId := "pre-fetched-" +:+ k;
                              resultToolName := k;
                              result := v |} ] |})
    /\ (forall m, m ∈ results ->
          exists part call,
            role m = tool
            /\ content m = ToolResults [part]
            /\ call ∈ calls
            /\ toolCallId call = resultCallId part
            /\ toolName call = resultToolName part).
Proof.
  apply (C9_synthetic_turns_consistent Sample.withContext
           [("toolA", VObj [("x", Sample.one)])]);
    [reflexivity | discriminate].
Defined.

End Assembly.

(** ** The tool adapter *)

Section ToolAdapter.

Lemma fromEntries_snoc {A} (l : list (string * A)) (e : string * A) :
  fromEntries (l ++ [e]) = <[e.1 := e.2]> (fromEntries l).
Proof. unfold fromEntries. by rewrite foldl_snoc. Qed.

(** [Object.fromEntries] keeps, for every key, the last entry with it. *)
Lemma fromEntries_lookup {A} (l : list (string * A)) (k : string) :
  fromEntries l !! k = snd <$> last (filter (fun e => e.1 = k) l).
Proof.
  induction l as [|e l IH] using rev_ind; [done|].
  rewrite fromEntries_snoc, filter_app, lookup_insert.
  rewrite list.filter_singleton by exact l.
  destruct (decide (e.1 = k)) as [Heq|Hne].
  - by rewrite last_snoc.
  - by rewrite app_nil_r.
Qed.

Lemma fromEntries_dom {A} (l : list (string * A)) :
  dom (fromEntries l) = list_to_set l.*1.
Proof.
  induction l as [|e l IH] using rev_ind; [apply dom_empty_L|].
  rewrite fromEntries_snoc, dom_insert_L, fmap_app, list_to_set_app_L, IH.
  simpl. rewrite (right_id_L ∅ (∪)). apply (comm_L (∪)).
Qed.

(** The entries [tools.map] produces, when every schema converts. *)
Lemma toolEntries_Return contextData tools entries :
  toolEntries contextData tools = Return entries ->
  Forall2 (fun toolDef entry =>
             exists zodSchema,
               jsonSchemaToZod (parameters toolDef) = Return zodSchema
               /\ entry = (name toolDef,
                           Spec.toolFor contextData toolDef zodSchema))
          tools entries.
Proof.
  revert entries. induction tools as [|toolDef tools IH]; intros entries.
  - intros [= <-]. constructor.
  - simpl. unfold toolEntry.
    destruct (jsonSchemaToZod (parameters toolDef)) as [z|] eqn:Hz;
      [|done]. simpl.
    destruct (toolEntries contextData tools) as [rest|]; [|done]. simpl.
    intros [= <-]. constructor; [by exists z | by apply IH].
Qed.

Lemma toolEntries_total contextData tools :
  Forall Spec.convertible tools ->
  exists entries, toolEntries contextData tools = Return entries.
Proof.
  induction tools as [|toolDef tools IH]; intros Hall; [by eexists|].
  apply Forall_cons in Hall as [[z Hz] Hall].
  destruct (IH Hall) as [rest Hrest].
  simpl. unfold toolEntry. rewrite Hz. simpl. rewrite Hrest. by eexists.
Qed.

(** The first schema that does not convert ends [streamMessage] before
    any tool is registered. *)
Lemma toolEntries_throws contextData tools :
  ~ Forall Spec.convertible tools ->
  exists message, toolEntries contextData tools = ThrowTypeError message.
Proof.
  induction tools as [|toolDef tools IH]; intros Hn.
  - destruct Hn. constructor.
  - simpl. unfold toolEntry.
    destruct (jsonSchemaToZod (parameters toolDef)) as [z|msg] eqn:Hz;
      [|by eexists]. simpl.
    destruct IH as [msg ->]; [|by eexists].
    intros Hall. apply Hn. constructor; [by exists z | done].
Qed.

Lemma lastNamed_snoc tools toolDef n :
  Spec.lastNamed (tools ++ [toolDef]) n
  = if decide (name toolDef = n) then Some toolDef
    else Spec.lastNamed tools n.
Proof.
  unfold Spec.lastNamed. rewrite filter_app.
  rewrite list.filter_singleton by exact tools.
  destruct (decide (name toolDef = n)).
  - by rewrite last_snoc.
  - by rewrite app_nil_r.
Qed.

(** The mapping holds, under every name, the tool of the last
    declaration with that name, and nothing under other names. *)
Lemma fromEntries_tools contextData tools entries n :
  toolEntries contextData tools = Return entries ->
  match Spec.lastNamed tools n with
  | Some toolDef =>
      exists zodSchema,
        jsonSchemaToZod (parameters toolDef) = Return zodSchema
        /\ fromEntries entries !! n
           = Some (Spec.toolFor contextData toolDef zodSchema)
  | None => fromEntries entries !! n = None
  end.
Proof.
  intros HF%toolEntries_Return. revert entries HF.
  induction tools as [|toolDef tools IH] using rev_ind; intros entries HF.
  - apply Forall2_nil_inv_l in HF as ->. done.
  - apply Forall2_app_inv_l in HF as (es & e & HF & He & ->).
    apply Forall2_cons_inv_l in He as (e1 & e2 & (z & Hz & ->) & ->%Forall2_nil_inv_l & ->).
    rewrite fromEntries_snoc, lastNamed_snoc, lookup_insert. simpl.
    destruct (decide (name toolDef = n)); [by exists z|].
    by apply IH.
Qed.

Lemma toolEntries_names contextData tools entries :
  toolEntries contextData tools = Return entries ->
  entries.*1 = name <$> tools.
Proof.
  intros HF%toolEntries_Return.
  induction HF as [|toolDef e tools entries (z & _ & ->) _ IH]; [done|].
  by rewrite !fmap_cons, IH.
Qed.

(** C10.  When the schemas of the declarations convert, the provider
    receives a mapping whose keys are exactly the declared names and
    which holds, under each name, the one tool built from the last
    declaration with that name: its description, the validator of its
    schema, and its [execute]. *)
Theorem C10_last_declaration_wins params declared :
  tools params = Some declared ->
  Forall Spec.convertible declared ->
  exists mapping,
    aiSdkTools params = Return (Some mapping)
    /\ dom mapping = list_to_set (name <$> declared)
    /\ (forall n toolDef,
          Spec.lastNamed declared n = Some toolDef ->
          exists zodSchema,
            jsonSchemaToZod (parameters toolDef) = Return zodSchema
            /\ mapping !! n
               = Some {| toolDescription := description toolDef;
                         toolParameters := zodSchema;
                         execute := fun _ =>
                           executeBody (contextData params) (name toolDef) |}).
Proof.
  intros Htools Hall.
  destruct (toolEntries_total (contextData params) declared Hall)
    as [entries Hentries].
  exists (fromEntries entries). unfold aiSdkTools.
  rewrite Htools, Hentries. split_and!.
  - done.
  - by rewrite fromEntries_dom, (toolEntries_names _ _ _ Hentries).
  - intros n toolDef Hlast.
    pose proof (fromEntries_tools _ _ _ n Hentries) as Hn.
    by rewrite Hlast in Hn.
Qed.

Lemma C10_last_declaration_witness :
  exists mapping,
    aiSdkTools Sample.duplicated = Return (Some mapping)
    /\ dom mapping = list_to_set ["getPrice"; "getNews"; "getPrice"]
    /\ (forall n toolDef,
          Spec.lastNamed [Sample.getPriceV1; Sample.getNews; Sample.getPriceV2] n
          = Some toolDef ->
          exists zodSchema,
            jsonSchemaToZod (parameters toolDef) = Return zodSchema
            /\ mapping !! n
               = Some {| toolDescription := description toolDef;
                         toolParameters := zodSchema;
                         execute := fun _ =>
                           executeBody (Some [("getPrice", Sample.one)])
                                       (name toolDef) |}).
Proof.
  apply (C10_last_declaration_wins Sample.duplicated
           [Sample.getPriceV1; Sample.getNews; Sample.getPriceV2]).
  - reflexivity.
  - repeat constructor; eexists; reflexivity.
Defined.

(** What [execute] returns, case by case: the sentinel when there is no
    context data; the own value under the tool's name unless it is
    [null] or [undefined]; and, when the context data has no own property
    of that name, the sentinel unless the name is a member of
    [Object.prototype], which the read [contextData?.[name]] finds. *)
Lemma executeBody_cases contextData n :
  executeBody contextData n
  = match contextData with
    | None => Data sentinel
    | Some o =>
        match own o n with
        | Some v => if nullish v then Data sentinel else Data v
        | None =>
            if bool_decide (n ∈ Object_prototype) then Inherited n
            else Data sentinel
        end
    end.
Proof.
  unfold executeBody, get. destruct contextData as [o|]; [|done].
  destruct (own o n) as [[]|]; try done.
  by destruct (bool_decide _).
Qed.

(** Every declaration has a tool under its name, and that tool's
    [execute] is the body above at the captured context data and name,
    however often it is called. *)
Lemma every_declaration_registered params declared mapping toolDef :
  tools params = Some declared ->
  aiSdkTools params = Return (Some mapping) ->
  toolDef ∈ declared ->
  exists registered,
    mapping !! name toolDef = Some registered
    /\ forall call : unit,
         execute registered call
         = executeBody (contextData params) (name toolDef).
Proof.
  unfold aiSdkTools. intros -> Hm Hin.
  destruct (toolEntries (contextData params) declared) as [entries|] eqn:He;
    [|done].
  change (Return (Some (fromEntries entries)) = Return (Some mapping)) in Hm.
  assert (mapping = fromEntries entries) as -> by congruence. clear Hm.
  pose proof (fromEntries_tools _ _ _ (name toolDef) He) as Hn.
  destruct (Spec.lastNamed declared (name toolDef)) as [final|] eqn:Hlast.
  - destruct Hn as (z & Hz & Hlookup). rewrite Hlookup.
    eexists; split; [done|]. intros call. simpl.
    apply last_Some_elem_of, list_elem_of_filter in Hlast as [Hname _].
    by rewrite Hname.
  - apply last_None in Hlast.
    assert (toolDef ∈ filter (fun d => name d = name toolDef) declared)
      as Hf by by apply list_elem_of_filter.
    unfold Spec.lastNamed in Hlast. rewrite Hlast in Hf. by inversion Hf.
Qed.

(** C8 at a tool whose name is a member of [Object.prototype]: with
    [tools = [{ name: "toString", ... }]] and [contextData = {}] the tool
    is registered, the context data has no value under the name, and
    [execute] returns the inherited function, not the sentinel. *)
Lemma C8_inherited_name_escapes_sentinel :
  exists mapping registered,
    aiSdkTools Sample.inheritedName = Return (Some mapping)
    /\ mapping !! "toString" = Some registered
    /\ own [] "toString" = None
    /\ execute registered () = Inherited "toString"
    /\ execute registered () <> Data sentinel.
Proof.
  eexists _, _. split_and!; [reflexivity | reflexivity | done | done | done].
Qed.

End ToolAdapter.

(** ** The reading tiers *)

Section Tiers.
Context `{Engine}.

Ltac gen_unfold :=
  unfold mbind, gen_bind, mret, gen_ret, throw, yield, takeEvent, readText,
    setClock, currentTime.

Lemma world_ext w1 w2 :
  clock w1 = clock w2 -> yielded w1 = yielded w2 ->
  consumed w1 = consumed w2 -> textReads w1 = textReads w2 ->
  w1 = w2.
Proof. destruct w1, w2; simpl; congruence. Qed.

Ltac world_eq :=
  apply world_ext; simpl; rewrite <- ?app_assoc; solve [done | lia].

Ltac run_eq :=
  f_equal; first [world_eq | done | do 2 f_equal; simpl; lia].

Lemma emit_emit xs ys w : emit ys (emit xs w) = emit (xs ++ ys) w.
Proof. unfold emit; simpl. by rewrite <- app_assoc. Qed.

Lemma emit_nil w : emit [] w = w.
Proof. destruct w. unfold emit; simpl. by rewrite app_nil_r. Qed.

Lemma taken_taken n m w : taken m (taken n w) = taken (n + m) w.
Proof. unfold taken; simpl. f_equal. lia. Qed.

Lemma taken_0 w : taken 0 w = w.
Proof. destruct w. unfold taken; simpl. f_equal. lia. Qed.

Lemma emit_taken xs n w : emit xs (taken n w) = taken n (emit xs w).
Proof. done. Qed.

(** The primary tier yields every fragment of the text channel. *)
Lemma readTextStream_run chunks finish n w :
  readTextStream chunks finish n w
  = (emit chunks w,
     match finish with
     | StreamDone => Normal (n + length chunks)
     | StreamThrows reason => Throw reason
     end).
Proof.
  revert n w. induction chunks as [|chunk chunks IH]; intros n w; simpl.
  - rewrite emit_nil, Nat.add_0_r. by destruct finish.
  - gen_unfold. rewrite IH, emit_emit. simpl.
    by rewrite Nat.add_succ_r.
Qed.

(** The secondary tier up to the first [error] part: the fragments
    before it are yielded, the part is taken, and nothing after it. *)
Lemma readFullStream_error before error after finish n w :
  Forall (fun part => Spec.isErrorPart part = false) before ->
  readFullStream (before ++ ErrorPart error :: after) finish n w
  = (taken (length before + 1) (emit (Spec.deltasOf before) w),
     Normal (n + length (Spec.deltasOf before),
             Some (fromError error VUndefined))).
Proof.
  intros Hbefore. revert n w.
  induction Hbefore as [|part before Hpart _ IH]; intros n w.
  - simpl. gen_unfold. by rewrite emit_nil, Nat.add_0_r.
  - destruct part as [textDelta| |partType]; [|done|]; simpl; gen_unfold;
      rewrite IH.
    + run_eq.
    + run_eq.
Qed.

(** The secondary tier on a channel without an [error] part. *)
Lemma readFullStream_done parts finish n w :
  Forall (fun part => Spec.isErrorPart part = false) parts ->
  readFullStream parts finish n w
  = (taken (length parts) (emit (Spec.deltasOf parts) w),
     match finish with
     | StreamDone => Normal (n + length (Spec.deltasOf parts), None)
     | StreamThrows reason => Throw reason
     end).
Proof.
  intros Hparts. revert n w.
  induction Hparts as [|part parts Hpart _ IH]; intros n w.
  - simpl. rewrite emit_nil, taken_0, Nat.add_0_r. by destruct finish.
  - destruct part as [textDelta| |partType]; [|done|]; simpl; gen_unfold;
      rewrite IH; destruct finish; run_eq.
Qed.

Lemma fromError_classified error context :
  isAiSdkError (fromError error context) = true.
Proof. unfold fromError. by destruct error. Qed.

Lemma fromError_same error context :
  isAiSdkError error = true -> fromError error context = error.
Proof. unfold fromError. by intros ->. Qed.

Lemma new_classified message cause context :
  isAiSdkError (new message cause context) = true.
Proof. done. Qed.

(** The outer [catch] surfaces a classified error as it is. *)
Lemma outerCatch_classified messages params error w :
  isAiSdkError error = true ->
  outerCatch messages params error w = (w, Throw error).
Proof. intros He. unfold outerCatch, throw. by rewrite fromError_same. Qed.



(** The one call of the provider: it receives the assembled messages,
    the tool mapping and a bound of 5 on the tool-call rounds. *)
Lemma provider_receives config provider params toolsMap :
  aiSdkTools params = Return toolsMap ->
  run (streamMessage config provider params)
  = tryCatch
      (tiers (assembleMessages params) params
             (provider {| argModel := model config;
                          argSystem := systemPrompt params;
                          argMessages := assembleMessages params;
                          argTools := toolsMap;
                          argMaxTokens := maxTokens config;
                          argTemperature := temperature config;
                          argMaxSteps := 5 |}))
      (outerCatch (assembleMessages params) params) start.
Proof. intros Htools. unfold run, streamMessage. by rewrite Htools. Qed.

(** [streamMessage] once the tools are built and the provider has
    answered with an empty text channel: the secondary tier runs, then
    the settlement tier if the fragment count is still zero, all inside
    the outer [try]. *)
Lemma streamMessage_secondary config provider params toolsMap r :
  aiSdkTools params = Return toolsMap ->
  provider (streamTextArgs config params toolsMap) = Invoked r ->
  textStream r = {| items := []; finish := StreamDone |} ->
  run (streamMessage config provider params)
  = tryCatch
      (chunkCount ← secondaryTier r;
       if bool_decide (chunkCount = 0) then
         settlementTier (assembleMessages params) params r;; mret ()
       else mret ())
      (outerCatch (assembleMessages params) params) start.
Proof.
  intros Htools Hprovider Htext. unfold run, streamMessage.
  rewrite Htools. unfold tryCatch, tiers. rewrite Hprovider.
  gen_unfold. by rewrite Htext.
Qed.


(** *** The settlement tier *)

Lemma awaitRace_fulfilled {A} (p : Promise A) ms timeout w t v :
  p = Fulfilled t v -> (t < clock w + ms)%N ->
  awaitRace p ms timeout w = (atTime (N.max (clock w) t) w, Normal v).
Proof.
  intros -> Hlt. unfold awaitRace. gen_unfold.
  by rewrite bool_decide_true.
Qed.

Lemma awaitRace_rejected {A} (p : Promise A) ms timeout w t reason :
  p = Rejected t reason -> (t < clock w + ms)%N ->
  awaitRace p ms timeout w = (atTime (N.max (clock w) t) w, Throw reason).
Proof.
  intros -> Hlt. unfold awaitRace. gen_unfold.
  by rewrite bool_decide_true.
Qed.


(** A race ends by its deadline, whatever the value does, and never
    hangs. *)
Lemma awaitRace_bounded {A} (p : Promise A) ms timeout w :
  (clock (awaitRace p ms timeout w).1 <= clock w + ms)%N
  /\ (awaitRace p ms timeout w).2 <> Hang.
Proof.
  unfold awaitRace. gen_unfold.
  destruct p as [t v|t reason|]; simpl; [| |split; [lia|done]];
    case_bool_decide; simpl; split; try done; lia.
Qed.

Lemma awaitRace_frame {A} (p : Promise A) ms timeout w :
  (awaitRace p ms timeout w).1
  = atTime (clock (awaitRace p ms timeout w).1) w.
Proof.
  unfold awaitRace. gen_unfold.
  destruct p as [t v|t reason|]; simpl; [| |done];
    by case_bool_decide.
Qed.

Lemma settlementRaces_settled r w fr txt calls t1 t2 t3 :
  finishReason r = Fulfilled t1 fr -> (t1 < clock w + 5000)%N ->
  finalText r (textReads w) = Fulfilled t2 txt ->
  (t2 < N.max (clock w) t1 + 30000)%N ->
  toolCalls r = Fulfilled t3 calls ->
  (t3 < N.max (N.max (clock w) t1) t2 + 30000)%N ->
  settlementRaces r w
  = (atTime (N.max (N.max (N.max (clock w) t1) t2) t3) (textRead w),
     Normal (fr, txt, calls)).
Proof.
  intros Hfr H1 Htxt H2 Hcalls H3. unfold settlementRaces.
  unfold mbind at 1, gen_bind.
  rewrite (awaitRace_fulfilled _ _ _ _ _ _ Hfr H1).
  unfold mbind at 1, gen_bind, readText.
  unfold mbind at 1, gen_bind. simpl.
  rewrite (awaitRace_fulfilled _ _ _ _ t2 txt) by done.
  unfold mbind at 1, gen_bind. simpl.
  rewrite (awaitRace_fulfilled _ _ _ _ t3 calls) by done.
  done.
Qed.

(** [streamMessage] after silent channels: the settlement tier decides,
    and what its [try] throws is surfaced inside the error its [catch]
    creates. *)
Lemma streamMessage_silent config provider params toolsMap r :
  aiSdkTools params = Return toolsMap ->
  provider (streamTextArgs config params toolsMap) = Invoked r ->
  Spec.silent r ->
  run (streamMessage config provider params)
  = match settlementBody (assembleMessages params) params r
                         (Spec.afterChannels r) with
    | (w, Normal _) => (w, Normal ())
    | (w, Throw inner) =>
        (w, Throw (new (settlementFailureMessage (assembleMessages params)
                                                 params inner)
                       inner VUndefined))
    | (w, Hang) => (w, Hang)
    end.
Proof.
  intros Htools Hprovider (Htext & Hdeltas & Hnoerror & Hfinish).
  rewrite (streamMessage_secondary _ _ _ _ _ Htools Hprovider Htext).
  unfold tryCatch, secondaryTier. gen_unfold.
  rewrite (readFullStream_done _ _ _ _ Hnoerror), Hfinish, Hdeltas.
  simpl. rewrite emit_nil. fold (Spec.afterChannels r).
  unfold settlementTier, tryCatch, settlementCatch. gen_unfold.
  by destruct (settlementBody _ _ _ _) as [w [n|inner|]].
Qed.

Lemma settlementBody_races messages params r w fr txt calls t :
  clock w = 0%N -> textReads w = 0 ->
  Spec.settledInTime r fr txt calls t ->
  settlementBody messages params r w
  = (if hasText txt then yield (default "" txt);; mret 1
     else if bool_decide (0 < lengthOr0 calls)
          then delayedText r (default [] calls) fr
          else throw (new (emptyStreamMessage messages params fr calls)
                          (Thrown VUndefined) VUndefined))
      (atTime t (textRead w)).
Proof.
  intros Hclock Hreads (t1 & t2 & t3 & Hfr & H1 & Htxt & H2 & Hcalls & H3 & ->).
  unfold settlementBody. unfold mbind at 1, gen_bind.
  rewrite (settlementRaces_settled r w fr txt calls t1 t2 t3);
    rewrite ?Hclock, ?Hreads, ?N.max_0_l; try done.
Qed.

(** *** Emptiness of a text *)

Lemma trimEnd_empty s : trimEnd s = "" <-> whitespaceOnly s = true.
Proof.
  induction s as [|c s IH]; simpl; [done|].
  destruct (trimEnd s) as [|c' t].
  - destruct (isWhiteSpace c); simpl; [tauto|].
    split; discriminate.
  - rewrite andb_true_iff. split; [discriminate|].
    intros [_ Hs]. apply IH in Hs. discriminate.
Qed.

Lemma trimStart_whitespaceOnly s :
  whitespaceOnly (trimStart s) = whitespaceOnly s.
Proof.
  induction s as [|c s IH]; simpl; [done|].
  destruct (isWhiteSpace c) eqn:Hc; simpl; [done|]. by rewrite Hc.
Qed.

(** [s.trim().length === 0] exactly when [s] is made of white space. *)
Lemma trim_length_0 s :
  String.length (trim s) = 0 <-> whitespaceOnly s = true.
Proof.
  unfold trim. rewrite <- trimStart_whitespaceOnly, <- trimEnd_empty.
  by destruct (trimEnd (trimStart s)).
Qed.

(** The test [text && text.trim().length] is the trimmed length alone:
    the empty text and a whitespace-only text both fail it. *)
Lemma hasText_trim s :
  hasText (Some s) = negb (String.length (trim s) =? 0).
Proof. by destruct s. Qed.

Lemma hasText_whitespaceOnly s :
  hasText (Some s) = negb (whitespaceOnly s).
Proof.
  rewrite hasText_trim. destruct (whitespaceOnly s) eqn:Hs.
  - apply trim_length_0 in Hs. by rewrite Hs.
  - destruct (String.length (trim s)) eqn:Hlen; [|done].
    apply trim_length_0 in Hlen. congruence.
Qed.

Lemma hasText_blank text : hasText (Spec.blank text) = hasText text.
Proof.
  destruct text as [s|]; [|done]. simpl Spec.blank.
  rewrite !hasText_whitespaceOnly.
  by destruct (whitespaceOnly s) eqn:Hs; [|rewrite Hs].
Qed.

Lemma blank_hasText text :
  hasText text = true -> Spec.blank text = text.
Proof.
  destruct text as [s|]; [|done]. rewrite hasText_whitespaceOnly.
  simpl. by destruct (whitespaceOnly s).
Qed.

Lemma awaitRace_map {A B} (f : A -> B) (p : Promise A) ms timeout w :
  awaitRace (Spec.mapPromise f p) ms timeout w
  = match awaitRace p ms timeout w with
    | (w', Normal v) => (w', Normal (f v))
    | (w', Throw reason) => (w', Throw reason)
    | (w', Hang) => (w', Hang)
    end.
Proof.
  unfold awaitRace. gen_unfold.
  destruct p as [t v|t reason|]; simpl; [| |done]; by case_bool_decide.
Qed.

Lemma await_map {A B} (f : A -> B) (p : Promise A) w :
  await (Spec.mapPromise f p) w
  = match await p w with
    | (w', Normal v) => (w', Normal (f v))
    | (w', Throw reason) => (w', Throw reason)
    | (w', Hang) => (w', Hang)
    end.
Proof. unfold await. gen_unfold. by destruct p. Qed.

Lemma delayedTextBody_blank r calls fr w :
  delayedTextBody (Spec.blankTexts r) calls fr w
  = delayedTextBody r calls fr w.
Proof.
  unfold delayedTextBody. gen_unfold. simpl. rewrite await_map.
  destruct (await _ _) as [w' [text| |]]; [|done..].
  rewrite hasText_blank. destruct (hasText text) eqn:Htext; [|done].
  by rewrite blank_hasText.
Qed.

Lemma settlementBody_blank messages params r w :
  settlementBody messages params (Spec.blankTexts r) w
  = settlementBody messages params r w.
Proof.
  unfold settlementBody, settlementRaces. gen_unfold. simpl.
  destruct (awaitRace (finishReason r) _ _ _) as [w1 [fr| |]]; [|done..].
  rewrite awaitRace_map.
  destruct (awaitRace (finalText r _) _ _ _) as [w2 [text| |]]; [|done..].
  destruct (awaitRace (toolCalls r) _ _ _) as [w3 [calls| |]]; [|done..].
  rewrite hasText_blank. destruct (hasText text) eqn:Htext.
  - by rewrite blank_hasText.
  - case_bool_decide; [|done]. unfold delayedText, tryCatch. gen_unfold.
    unfold sleep. gen_unfold. by rewrite delayedTextBody_blank.
Qed.

(** C4, as the code has it.  After silent channels, when the finish
    reason, the final text and the tool invocations all win their races
    and the text is not empty after trimming, [streamMessage] yields that
    one text and ends normally.  And every test of a final text is the
    trimmed length alone, so that a provider whose whitespace-only texts
    are replaced by empty texts gives the caller the same run. *)
Theorem C4_final_text_yielded config provider params :
  (forall toolsMap r fr s calls t,
      aiSdkTools params = Return toolsMap ->
      provider (streamTextArgs config params toolsMap) = Invoked r ->
      Spec.silent r ->
      Spec.settledInTime r fr (Some s) calls t ->
      String.length (trim s) <> 0 ->
      exists w,
        run (streamMessage config provider params) = (w, Normal ())
        /\ yielded w = [s]
        /\ clock w = t)
  /\ (forall s, hasText (Some s) = negb (String.length (trim s) =? 0))
  /\ (forall s, whitespaceOnly s = true -> hasText (Some s) = hasText (Some ""))
  /\ run (streamMessage config (fun args => Spec.blanked (provider args)) params)
     = run (streamMessage config provider params).
Proof.
  split_and!.
  - intros toolsMap r fr s calls t Htools Hprovider Hsilent Hsettled Htrim.
    rewrite (streamMessage_silent _ _ _ _ _ Htools Hprovider Hsilent).
    rewrite (settlementBody_races _ _ _ (Spec.afterChannels r) _ _ _ _
               eq_refl eq_refl Hsettled).
    rewrite hasText_trim.
    destruct (String.length (trim s)) eqn:Hlen; [done|]. simpl.
    gen_unfold. eexists; split_and!; done.
  - apply hasText_trim.
  - intros s Hs. rewrite hasText_whitespaceOnly, Hs. done.
  - unfold run, streamMessage.
    destruct (aiSdkTools params) as [toolsMap|]; [|done].
    unfold tryCatch, tiers. gen_unfold.
    destruct (provider _) as [r|reason]; [|done]. simpl.
    destruct (readTextStream _ _ _ _) as [w1 [[|n]| |]]; [|done..].
    unfold secondaryTier. gen_unfold. simpl.
    destruct (readFullStream _ _ _ _) as [w2 [[[|n2] [streamError|]]| |]];
      [done| |done..].
    simpl. unfold settlementTier, tryCatch.
    by rewrite settlementBody_blank.
Qed.

(** *** The grace period *)







(** The grace branch: one second later the text is read again and
    awaited without a timer. *)
Lemma delayedText_run r calls fr w :
  delayedText r calls fr w
  = let later := (clock w + 1000)%N in
    let w1 := textRead (atTime later w) in
    match finalText r (textReads w) with
    | Fulfilled t' text =>
        let w2 := atTime (N.max later t') w1 in
        if hasText text then (emit [default "" text] w2, Normal 1)
        else
          (w2,
           Throw (new (noTextMessage calls fr +:+ ", Error: "
                       +:+ noTextMessage calls fr)
                      (new (noTextMessage calls fr) (Thrown VUndefined)
                           VUndefined)
                      VUndefined))
    | Rejected t' reason =>
        (atTime (N.max later t') w1,
         Throw (new (noTextMessage calls fr +:+ ", Error: "
                     +:+ messageOr "Unknown" reason)
                    reason VUndefined))
    | Pending => (w1, Hang)
    end.
Proof.
  unfold delayedText, sleep, tryCatch, delayedTextBody, delayedTextCatch,
    await.
  gen_unfold. simpl.
  destruct (finalText r (textReads w)) as [t' text|t' reason|]; simpl;
    [|done..].
  by destruct (hasText text).
Qed.



(** *** The races *)

Lemma awaitRace_cases {A} (p : Promise A) ms timeout w :
  exists t c,
    awaitRace p ms timeout w = (atTime t w, c)
    /\ (clock w <= t <= clock w + ms)%N
    /\ c <> Hang.
Proof.
  unfold awaitRace. gen_unfold.
  destruct p as [t v|t reason|]; simpl;
    try case_bool_decide; eexists _, _; split_and!; try done; lia.
Qed.

Ltac race_step t c Ht Hc :=
  match goal with
  | |- context [awaitRace ?p ?ms ?timeout ?w] =>
      destruct (awaitRace_cases p ms timeout w) as (t & c & -> & Ht & Hc)
  end.




(** *** Classification *)

(** An error that wraps another one is not that one. *)
Lemma wrapper_differs inner message context stack :
  AiSdkError message inner context stack <> inner.
Proof.
  revert message context stack.
  induction inner as [n m st|m inner IH c st|v];
    intros message context stack; try discriminate.
  intros [= -> Hinner -> ->]. by apply IH in Hinner.
Qed.

Lemma new_differs message inner context :
  new message inner context <> inner.
Proof. apply wrapper_differs. Qed.

(** Whatever the body of the outer [try] throws, the outer [catch]
    raises a classified error. *)
Lemma outer_try_classified (body : Gen unit) messages params w w' e :
  tryCatch body (outerCatch messages params) w = (w', Throw e) ->
  isAiSdkError e = true.
Proof.
  unfold tryCatch, outerCatch, throw.
  destruct (body w) as [w1 [[]|t|]]; [done| |done].
  intros [= _ <-]. apply fromError_classified.
Qed.

(** How a failure of [streamMessage] reaches the caller.  It is raised
    once.  It is a classified error, unless the conversion of a tool
    schema threw, which happens before the outer [try] and surfaces the
    [TypeError] itself.  A failure of the provider call is classified by
    the outer [catch], and comes out as it is when it is classified
    already.  The error classified by the secondary tier for an [error]
    event is surfaced as that same error.  What the [try] of the
    settlement tier throws - a timeout error, the empty-stream error,
    the error of the grace branch, or a rejection - is surfaced inside a
    further classified error, created by the [catch] of that tier, that
    carries it as its cause. *)
Lemma failures_reach_caller config provider params :
  let out := run (streamMessage config provider params) in
  let messages := assembleMessages params in
  (forall w e,
      out = (w, Throw e) ->
      isAiSdkError e = true
      \/ exists message,
           aiSdkTools params = ThrowTypeError message
           /\ e = NativeError "TypeError" message (Some (captureStack message))
           /\ w = start)
  /\ (forall toolsMap reason,
        aiSdkTools params = Return toolsMap ->
        provider (streamTextArgs config params toolsMap)
        = InvocationFails reason ->
        exists context,
          out = (start, Throw (fromError reason context))
          /\ (isAiSdkError reason = true -> fromError reason context = reason))
  /\ (forall toolsMap r before error after,
        aiSdkTools params = Return toolsMap ->
        provider (streamTextArgs config params toolsMap) = Invoked r ->
        textStream r = {| items := []; finish := StreamDone |} ->
        items (fullStream r) = before ++ ErrorPart error :: after ->
        Forall (fun part => Spec.isErrorPart part = false) before ->
        out.2 = Throw (fromError error VUndefined))
  /\ (forall toolsMap r w inner,
        aiSdkTools params = Return toolsMap ->
        provider (streamTextArgs config params toolsMap) = Invoked r ->
        Spec.silent r ->
        settlementBody messages params r (Spec.afterChannels r)
        = (w, Throw inner) ->
        exists e,
          out = (w, Throw e)
          /\ e = new (settlementFailureMessage messages params inner)
                     inner VUndefined
          /\ isAiSdkError e = true
          /\ causeOf e = inner
          /\ e <> inner).
Proof.
  intros out messages. subst out messages. split_and!.
  - intros w e. unfold run, streamMessage.
    destruct (aiSdkTools params) as [toolsMap|message].
    + intros Hrun%outer_try_classified. by left.
    + intros [= <- <-]. right. by exists message.
  - intros toolsMap reason Htools Hprovider. unfold run, streamMessage.
    rewrite Htools. unfold tryCatch, tiers. rewrite Hprovider.
    gen_unfold. unfold outerCatch, throw. eexists; split; [done|].
    apply fromError_same.
  - intros toolsMap r before error after Htools Hprovider Htext Hfull Hbefore.
    rewrite (streamMessage_secondary _ _ _ _ _ Htools Hprovider Htext).
    unfold tryCatch, secondaryTier. gen_unfold. rewrite Hfull.
    rewrite readFullStream_error by done.
    rewrite outerCatch_classified
      by (rewrite fromError_same; apply fromError_classified).
    by rewrite fromError_same by apply fromError_classified.
  - intros toolsMap r w inner Htools Hprovider Hsilent Hbody.
    rewrite (streamMessage_silent _ _ _ _ _ Htools Hprovider Hsilent), Hbody.
    eexists; split_and!; try done. apply new_differs.
Qed.

End Tiers.

(** ** The schema converter *)

Section Schemas.

Ltac fallible_unfold := unfold mbind, fallible_bind, mret, fallible_ret.

(** A read of one of the four properties on a value that is neither
    [null] nor [undefined]. *)
Lemma read_part v f :
  nullish v = false -> read v f = Return (Spec.part v (fieldName f)).
Proof. by destruct v. Qed.

Lemma part_nullish v k : nullish v = true -> Spec.part v k = VUndefined.
Proof. by destruct v. Qed.

Lemma forallb_accepts_string vs :
  forallb (fun v => accepts ZodString (Data v)) vs = forallb Spec.isString vs.
Proof. induction vs as [|v vs IH]; simpl in *; [done|]. by rewrite IH. Qed.

Lemma forallb_accepts_number vs :
  forallb (fun v => accepts ZodNumber (Data v)) vs = forallb Spec.isNumber vs.
Proof. induction vs as [|v vs IH]; simpl in *; [done|]. by rewrite IH. Qed.

Lemma forallb_accepts_unknown vs :
  forallb (fun v => accepts ZodUnknown (Data v)) vs = true.
Proof. by induction vs. Qed.

(** The validator of a property schema accepts exactly what conforms. *)
Lemma zodTypeOf_conforms propSchema :
  nullish propSchema = false ->
  exists t,
    zodTypeOf propSchema = Return t
    /\ forall x, accepts t x = Spec.conforms propSchema x.
Proof.
  intros Hps. unfold zodTypeOf, Spec.conforms.
  rewrite !read_part by done. fallible_unfold. simpl fieldName.
  destruct (strictEq (Spec.part propSchema "type") "string");
    [eexists; split; [done|]; by intros [[]|]|].
  destruct (strictEq (Spec.part propSchema "type") "number");
    [eexists; split; [done|]; by intros [[| | |[]| | |]|]|].
  destruct (strictEq (Spec.part propSchema "type") "boolean");
    [eexists; split; [done|]; by intros [[]|]|].
  destruct (strictEq (Spec.part propSchema "type") "array");
    [|eexists; split; [done|]; by intros [[]|]].
  assert ((if nullish (Spec.part propSchema "items")
           then Return VUndefined
           else read (Spec.part propSchema "items") type_)
          = Return (Spec.part (Spec.part propSchema "items") "type"))
    as ->.
  { destruct (nullish (Spec.part propSchema "items")) eqn:Hitems.
    - by rewrite part_nullish.
    - by rewrite read_part. }
  destruct (strictEq _ "string");
    [eexists; split; [done|]; intros [[]|]; try done;
     apply forallb_accepts_string|].
  destruct (strictEq _ "number");
    [eexists; split; [done|]; intros [[]|]; try done;
     apply forallb_accepts_number|].
  eexists; split; [done|]; intros [[]|]; try done.
  apply forallb_accepts_unknown.
Qed.

Lemma typed_undefined propSchema :
  Spec.typed propSchema = true ->
  Spec.conforms propSchema (Data VUndefined) = false.
Proof.
  unfold Spec.typed, Spec.conforms.
  by repeat destruct (strictEq _ _).
Qed.

Lemma untyped_conforms propSchema x :
  Spec.typed propSchema = false -> Spec.conforms propSchema x = true.
Proof.
  unfold Spec.typed, Spec.conforms.
  by repeat destruct (strictEq _ _).
Qed.

Lemma put_fresh {A} (o : list (string * A)) k v :
  k ∉ o.*1 -> put o k v = o ++ [(k, v)].
Proof.
  induction o as [|[k' v'] o IH]; intros Hk; [done|]. simpl.
  apply not_elem_of_cons in Hk as [Hne Hk].
  destruct (decide (k' = k)); [done|]. by rewrite IH.
Qed.

(** One turn of the loop: the validator stored for a property accepts
    what passes. *)
Lemma entry_passes required kp t x :
  (forall x, accepts t x = Spec.conforms kp.2 x) ->
  accepts (if Spec.isRequired required kp.1 then t else ZodOptional t) x
  = Spec.passes required kp x.
Proof.
  intros Ht. unfold Spec.passes.
  destruct (Spec.isRequired required kp.1); simpl.
  - by rewrite Ht, orb_false_r.
  - rewrite <- Ht. destruct x as [[]|]; simpl;
      by rewrite ?orb_true_r, ?orb_false_r.
Qed.

(** The loop on well-formed property schemas: it returns, and the shape
    checks the properties other than [__proto__]. *)
Lemma buildShape_passes required props :
  forall zodShape,
    NoDup props.*1 ->
    (forall k, k ∈ props.*1 -> k ∉ zodShape.*1) ->
    Forall (fun kp => nullish kp.2 = false) props ->
    exists shape,
      buildShape props (VArr required) zodShape = Return shape
      /\ forall o,
           forallb (fun kt => accepts kt.2 (get o kt.1)) shape
           = forallb (fun kt => accepts kt.2 (get o kt.1)) zodShape
             && forallb (fun kp => bool_decide (kp.1 = "__proto__")
                                   || Spec.passes required kp (get o kp.1))
                        props.
Proof.
  induction props as [|[k propSchema] props IH];
    intros zodShape Hdup Hfresh Hall.
  - exists zodShape. split; [done|]. intros o. by rewrite andb_true_r.
  - apply NoDup_cons in Hdup as [Hk Hdup].
    apply Forall_cons in Hall as [Hps Hall]. simpl in Hps.
    destruct (zodTypeOf_conforms propSchema Hps) as (t & Ht & Haccepts).
    simpl. rewrite Ht. fallible_unfold. simpl.
    fold (Spec.isRequired required k).
    unfold assign. destruct (decide (k = "__proto__")) as [->|Hproto].
    + destruct (IH zodShape Hdup) as (shape & -> & Hshape); [|done|].
      { intros k' Hk'. apply Hfresh. by right. }
      exists shape. split; [done|]. intros o.
      by rewrite Hshape, bool_decide_true.
    + rewrite put_fresh by (apply Hfresh; by left).
      destruct (IH (zodShape ++ [(k, if Spec.isRequired required k then t
                                     else ZodOptional t)]) Hdup)
        as (shape & -> & Hshape); [|done|].
      { intros k' Hk'. rewrite fmap_app, elem_of_app. simpl.
        intros [Hin|Hin%list_elem_of_singleton].
        - revert Hin. apply Hfresh. by right.
        - by subst. }
      exists shape. split; [done|]. intros o.
      rewrite Hshape, forallb_app. simpl.
      rewrite bool_decide_false by done. simpl.
      rewrite (entry_passes required (k, propSchema)) by done.
      by rewrite andb_true_r, andb_assoc.
Qed.

(** The loop throws exactly on a property schema that is [null] or
    [undefined], or on a [required] without [includes]. *)
Lemma buildShape_throws required props :
  forall zodShape,
    (exists message,
        buildShape props required zodShape = ThrowTypeError message)
    <-> existsb (fun kp => nullish kp.2) props
        || (bool_decide (props <> [])
            && match required with
               | VArr _ | VStr _ => false
               | _ => true
               end) = true.
Proof.
  induction props as [|[k propSchema] props IH]; intros zodShape.
  - simpl. split; [by intros [? ?]|done].
  - simpl. destruct (nullish propSchema) eqn:Hps.
    + split; [done|]. intros _.
      destruct propSchema; try done; by eexists.
    + destruct (zodTypeOf_conforms propSchema Hps) as (t & -> & _).
      fallible_unfold. simpl.
      destruct required as [| | | | |reqs|]; simpl;
        try (rewrite orb_true_r; split; [done|by eexists]).
      * rewrite IH. simpl. by rewrite !andb_false_r, !orb_false_r.
      * rewrite IH. simpl. by rewrite !andb_false_r, !orb_false_r.
Qed.

Lemma forallb_false {A} (f : A -> bool) (l : list A) :
  forallb f l = false <-> exists x, x ∈ l /\ f x = false.
Proof.
  induction l as [|a l IH]; simpl.
  - split; [done|]. by intros (x & Hx%elem_of_nil & _).
  - rewrite andb_false_iff, IH. split.
    + intros [Ha|(x & Hx & Hf)]; [exists a|exists x];
        (split; [|done]); by constructor.
    + intros (x & [->|Hx]%elem_of_cons & Hf); [by left|right; eauto].
Qed.

Lemma forallb_agree {A} (f g : A -> bool) (l : list A) :
  (forall x, x ∈ l -> f x = g x) -> forallb f l = forallb g l.
Proof.
  induction l as [|a l IH]; intros Hfg; [done|]. simpl.
  rewrite Hfg by constructor. rewrite IH; [done|].
  intros x Hx. apply Hfg. by constructor.
Qed.

Lemma jsonSchemaToZod_object o :
  jsonSchemaToZod (VObj o)
  = if Spec.objectShaped (VObj o) then
      zodShape ← buildShape (Spec.declared (VObj o))
                            (Spec.requiredOf (VObj o)) [];
      mret (ZodObject zodShape passthrough)
    else mret anyObject.
Proof.
  unfold jsonSchemaToZod, Spec.objectShaped, Spec.declared, Spec.requiredOf.
  simpl. fallible_unfold. simpl.
  by destruct (strictEq _ _), (truthy _).
Qed.

Lemma jsonSchemaToZod_fallback schema :
  Spec.objectShaped schema = false ->
  jsonSchemaToZod schema = Return anyObject.
Proof.
  destruct schema as [| |b|n|s|vs|o]; try done.
  - intros _. unfold jsonSchemaToZod. by destruct (truthy (VBool b)).
  - intros _. unfold jsonSchemaToZod. by destruct (truthy (VNum n)).
  - intros _. unfold jsonSchemaToZod. by destruct (truthy (VStr s)).
  - intros Hshape. by rewrite jsonSchemaToZod_object, Hshape.
Qed.

Lemma rejects_passes schema required o :
  Spec.rejects schema required o
  <-> exists kp,
        kp ∈ Spec.declared schema
        /\ (bool_decide (kp.1 = "__proto__")
            || Spec.passes required kp (get o kp.1)) = false.
Proof.
  unfold Spec.rejects, Spec.passes. split.
  - intros (k & propSchema & Hin & Hproto & Htyped & Hcase).
    exists (k, propSchema). split; [done|]. simpl.
    rewrite bool_decide_false by done. simpl.
    destruct Hcase as [[Hpresent ->]|[-> ->]]; simpl.
    + destruct (get o k) as [[]|]; try done;
        by rewrite andb_false_r.
    + by rewrite typed_undefined.
  - intros ([k propSchema] & Hin & Hfails). simpl in Hfails.
    apply orb_false_iff in Hfails as [Hproto%bool_decide_eq_false Hfails].
    apply orb_false_iff in Hfails as [Hconforms Hfails].
    exists k, propSchema. split_and!; try done.
    + destruct (Spec.typed propSchema) eqn:Htyped; [done|].
      by rewrite untyped_conforms in Hconforms.
    + destruct (Spec.isUndefined (get o k)) eqn:Hundefined.
      * right. rewrite andb_true_r in Hfails.
        apply negb_false_iff in Hfails. split; [done|].
        by destruct (get o k) as [[]|].
      * left. split; [|done]. intros Heq. by rewrite Heq in Hundefined.
Qed.

Lemma own_snoc_ne (o : object) k v k' :
  k' <> k -> own (o ++ [(k, v)]) k' = own o k'.
Proof.
  intros Hne. induction o as [|[k0 v0] o IH]; simpl.
  - by destruct (decide (k = k')).
  - by destruct (decide (k0 = k')).
Qed.

(** C7, as the code has it.  A schema that is not object-shaped -
    [undefined], no object, a [type] other than ["object"], no
    [properties] - gives the validator that accepts every object.  The
    converter throws exactly on the ill-formed schemas: an object-shaped
    schema with a property schema that is [null] or [undefined], or with
    properties and a [required] that has no [includes].  For a
    well-formed object-shaped schema it returns a pass-through validator
    that rejects an object exactly when a declared property of type
    string, number, boolean or array, other than [__proto__], is read
    with a value that does not conform to the declared type, or is
    required and read as [undefined]; a required property of another
    declared type may be missing.  A further field that is not declared
    never changes the verdict. *)
Theorem C7_validator_of_schema :
  (forall schema,
      Spec.objectShaped schema = false ->
      jsonSchemaToZod schema = Return anyObject)
  /\ (forall o, safeParse anyObject (VObj o) = true)
  /\ (forall schema,
        (exists message, jsonSchemaToZod schema = ThrowTypeError message)
        <-> Spec.illFormed schema = true)
  /\ (forall schema required,
        Spec.wellFormed schema required ->
        exists shape,
          jsonSchemaToZod schema = Return (ZodObject shape passthrough)
          /\ (forall o,
                safeParse (ZodObject shape passthrough) (VObj o) = false
                <-> Spec.rejects schema required o)
          /\ (forall o k v,
                k ∉ (Spec.declared schema).*1 ->
                safeParse (ZodObject shape passthrough) (VObj (o ++ [(k, v)]))
                = safeParse (ZodObject shape passthrough) (VObj o))).
Proof.
  split_and!.
  - apply jsonSchemaToZod_fallback.
  - done.
  - intros schema. unfold Spec.illFormed.
    destruct (Spec.objectShaped schema) eqn:Hshape.
    + destruct schema as [| | | | | |o]; try done.
      rewrite jsonSchemaToZod_object, Hshape. simpl andb.
      rewrite <- (buildShape_throws _ _ []). fallible_unfold.
      destruct (buildShape _ _ _) as [shape|message];
        split; intros [message' Hm]; try done; by eexists.
    + rewrite jsonSchemaToZod_fallback by done. simpl.
      split; [by intros [? ?]|done].
  - intros schema required (Hshape & Hdup & Hall & Hrequired).
    destruct schema as [| | | | | |s]; try done.
    rewrite jsonSchemaToZod_object, Hshape, Hrequired.
    destruct (buildShape_passes required (Spec.declared (VObj s)) []
                Hdup) as (shape & -> & Hchecks); [by intros k _ ?%elem_of_nil|done|].
    exists shape. fallible_unfold.
    assert (Hparse : forall o,
               safeParse (ZodObject shape passthrough) (VObj o)
               = forallb (fun kp => bool_decide (kp.1 = "__proto__")
                                    || Spec.passes required kp (get o kp.1))
                         (Spec.declared (VObj s))).
    { intros o. simpl. by rewrite andb_true_r, Hchecks. }
    split_and!; [done| |].
    + intros o. by rewrite Hparse, forallb_false, rejects_passes.
    + intros o k v Hk. rewrite !Hparse.
      apply forallb_agree. intros [k' p'] Hin. simpl.
      destruct (decide (k' = k)) as [->|Hne].
      * destruct Hk. by apply (list_elem_of_fmap_2 fst _ (k, p')).
      * unfold get. by rewrite own_snoc_ne.
Qed.

End Schemas.

(** ** The properties at the sample inputs *)

Section Runs.

#[local] Existing Instance Sample.engine.

Lemma silent_settled fr texts calls :
  Spec.silent (Sample.settled fr texts calls).
Proof. repeat split. constructor. Qed.

Lemma settledInTime_settled fr texts calls :
  Spec.settledInTime (Sample.settled fr texts calls)
                     fr (texts 0) (Some calls) 0.
Proof. exists 0%N, 0%N, 0%N. repeat split; done. Qed.

(** C2 (an error classified in an inner tier is surfaced as that same
    instance, never wrapped a second time) at a run that produces nothing
    at all: both channels empty, an empty final text, no tool invocation
    and the finish reason ["stop"].  The settlement tier classifies the
    failure as the empty-stream error; the [catch] of that tier builds a
    new classified error around it instead of passing it to
    [AiSdkError.fromError], as the outer [catch] and the secondary tier
    do, and the caller receives the wrapper. *)
Lemma C2_empty_stream_error_wrapped :
  let messages := assembleMessages Sample.plain in
  let emptyStreamError :=
    new ("AI SDK stream completed without generating any chunks or text. "
         +:+ "Messages: 1, Tools: 0, ContextData keys: none, "
         +:+ "FinishReason: stop, ToolCalls: 0")
        (Thrown VUndefined) VUndefined in
  exists w surfaced,
    settlementBody messages Sample.plain Sample.nothing
                   (Spec.afterChannels Sample.nothing)
    = (w, Throw emptyStreamError)
    /\ run (streamMessage Sample.config (Sample.answers Sample.nothing)
                          Sample.plain)
       = (w, Throw surfaced)
    /\ surfaced <> emptyStreamError
    /\ causeOf surfaced = emptyStreamError
    /\ messageOf surfaced
       = "AI SDK stream completed without generating any chunks. "
         +:+ "Messages: 1, Tools: 0, ContextData keys: none. "
         +:+ "Error getting final result: "
         +:+ messageOf emptyStreamError.
Proof.
  eexists _, _. split_and!; [reflexivity | reflexivity | | reflexivity..].
  discriminate.
Qed.

(** A finish reason that never settles: the timeout error of the first
    race is surfaced inside the error of the settlement tier's [catch]. *)
Lemma failures_reach_caller_timeout :
  exists e,
    run (streamMessage Sample.config
                       (Sample.answers Sample.finishReasonHangs)
                       Sample.plain)
    = (atTime 5000 start, Throw e)
    /\ e = new (settlementFailureMessage (assembleMessages Sample.plain)
                                         Sample.plain
                                         (timeoutError "finishReason"))
               (timeoutError "finishReason") VUndefined
    /\ isAiSdkError e = true
    /\ causeOf e = timeoutError "finishReason"
    /\ e <> timeoutError "finishReason".
Proof.
  destruct (failures_reach_caller Sample.config
              (Sample.answers Sample.finishReasonHangs) Sample.plain)
    as (_ & _ & _ & Hsettlement).
  apply (Hsettlement None Sample.finishReasonHangs); try reflexivity.
  repeat split. constructor.
Qed.

(** The run of the service's test "catch block resultError when the
    error is not an Error": the finish reason is rejected with the string
    ["String error"].  The test expects the raised message to contain
    that string; the [catch] of the settlement tier replaces it by
    ["Unknown error"]. *)
Lemma settlement_rejection_text_lost :
  exists w e,
    run (streamMessage Sample.config
                       (Sample.answers Sample.finishReasonRejected)
                       Sample.plain)
    = (w, Throw e)
    /\ messageOf e
       = "AI SDK stream completed without generating any chunks. "
         +:+ "Messages: 1, Tools: 0, ContextData keys: none. "
         +:+ "Error getting final result: Unknown error"
    /\ includes (messageOf e) "String error" = false
    /\ messageOf (fromError (Thrown (VStr "String error")) VUndefined)
       = "String error".
Proof. eexists _, _. split_and!; reflexivity. Qed.


(** C4 as stated fails: both channels are empty and the final text is
    ["Final text"], but the finish reason never settles; nothing is
    yielded and the run ends with an error at 5000 ms. *)
Lemma C4_final_text_lost_to_timeout :
  Spec.silent Sample.finishReasonHangs
  /\ finalText Sample.finishReasonHangs 0 = Fulfilled 0 (Some "Final text")
  /\ String.length (trim "Final text") <> 0
  /\ exists w e,
       run (streamMessage Sample.config
                          (Sample.answers Sample.finishReasonHangs)
                          Sample.plain)
       = (w, Throw e)
       /\ yielded w = []
       /\ clock w = 5000%N
       /\ causeOf e = timeoutError "finishReason".
Proof.
  split_and!; [repeat split; constructor | reflexivity | discriminate |].
  eexists _, _. split_and!; reflexivity.
Qed.

Lemma C4_final_text_yielded_witness :
  exists w,
    run (streamMessage Sample.config (Sample.answers Sample.finalTextOnly)
                       Sample.plain)
    = (w, Normal ())
    /\ yielded w = ["Final text"]
    /\ clock w = 0%N.
Proof.
  destruct (C4_final_text_yielded Sample.config
              (Sample.answers Sample.finalTextOnly) Sample.plain)
    as (Hyielded & _).
  apply (Hyielded None Sample.finalTextOnly (Some "stop") "Final text"
                  (Some []) 0%N); try reflexivity.
  - apply silent_settled.
  - apply (settledInTime_settled (Some "stop") (fun _ => Some "Final text") []).
  - discriminate.
Defined.



(** C7 as stated fails twice.  The converter is not total: on
    [{ type: "object", properties: { a: null } }] it throws.  And the
    validator of a schema whose required property [u] has the type
    [integer] accepts the empty object, in which [u] is missing. *)
Lemma C7_null_property_schema_throws :
  jsonSchemaToZod Sample.nullPropertySchema
  = ThrowTypeError "Cannot read properties of null (reading 'type')"
  /\ exists validator,
       jsonSchemaToZod Sample.requiredInteger = Return validator
       /\ ("u", VObj [("type", VStr "integer")])
          ∈ Spec.declared Sample.requiredInteger
       /\ Spec.requiredOf Sample.requiredInteger = VArr [VStr "u"]
       /\ get [] "u" = Data VUndefined
       /\ safeParse validator (VObj []) = true.
Proof.
  split; [reflexivity|]. eexists. split_and!; try reflexivity.
  constructor.
Qed.

Lemma C7_validator_of_schema_witness :
  exists shape,
    jsonSchemaToZod Sample.nameAndTags = Return (ZodObject shape passthrough)
    /\ (forall o,
          safeParse (ZodObject shape passthrough) (VObj o) = false
          <-> Spec.rejects Sample.nameAndTags [VStr "name"] o)
    /\ (forall o k v,
          k ∉ (Spec.declared Sample.nameAndTags).*1 ->
          safeParse (ZodObject shape passthrough) (VObj (o ++ [(k, v)]))
          = safeParse (ZodObject shape passthrough) (VObj o)).
Proof.
  destruct C7_validator_of_schema as (_ & _ & _ & Hwell).
  apply Hwell. split_and!; [reflexivity | | | reflexivity].
  - apply (bool_decide_unpack _). vm_compute. exact I.
  - repeat constructor.
Defined.

End Runs.

(** * Further properties *)

(** ** The classified error and the constructor of the service *)

Section Classifier.
Context `{Engine}.

Import Construction.



(** X3.  The constructor of the service throws a classified error when the
    base URL is missing or empty, with the message ["baseURL is
    required"] whatever the API key is, and when the base URL is there
    and the API key is empty, with the message ["apiKey is required"].
    Otherwise it keeps the configuration as it is and asks the provider
    for the configured model with this base URL and API key. *)
Theorem construct_requires_baseURL_and_apiKey config :
  match construct config with
  | inl e =>
      isAiSdkError e = true
      /\ causeOf e = Thrown VUndefined
      /\ ((baseURL config = None \/ baseURL config = Some "")
          /\ messageOf e = "baseURL is required"
          \/ (exists url, baseURL config = Some url /\ url <> "")
             /\ apiKey config = ""
             /\ messageOf e = "apiKey is required")
  | inr service =>
      (exists url, baseURL config = Some url /\ url <> ""
                   /\ settingsBaseURL (serviceModel service) = VStr url)
      /\ apiKey config <> ""
      /\ settingsApiKey (serviceModel service) = VStr (apiKey config)
      /\ modelId (serviceModel service) = model config
      /\ serviceConfig service = config
  end.
Proof.
  unfold construct.
  destruct (baseURL config) as [[|c url]|] eqn:Hurl; simpl;
    [split_and!; auto.. | | split_and!; auto].
  destruct (apiKey config) as [|c' key] eqn:Hkey; simpl.
  - split_and!; try done. right. split_and!; try done. by eexists.
  - split_and!; try done. by eexists.
Qed.

End Classifier.

(** ** The two channels *)

Section Channels.
Context `{Engine}.

Ltac gen_unfold :=
  unfold mbind, gen_bind, mret, gen_ret, throw, yield, takeEvent, readText,
    setClock, currentTime.


(** A list of events has no [error] part, or splits at its first one. *)
Lemma first_error_part parts :
  Forall (fun part => Spec.isErrorPart part = false) parts
  \/ exists before error after,
       parts = before ++ ErrorPart error :: after
       /\ Forall (fun part => Spec.isErrorPart part = false) before.
Proof.
  induction parts as [|part parts IH]; [by left|].
  destruct part as [textDelta|error|partType].
  - destruct IH as [Hall|(before & error & after & -> & Hbefore)].
    + left. by constructor.
    + right. exists (TextDelta textDelta :: before), error, after.
      split; [done|]. by constructor.
  - right. by exists [], error, parts.
  - destruct IH as [Hall|(before & error & after & -> & Hbefore)].
    + left. by constructor.
    + right. exists (OtherPart partType :: before), error, after.
      split; [done|]. by constructor.
Qed.

(** X4.  The fast path.  When the text channel yields at least one fragment
    and ends, [streamMessage] yields these fragments in their order and
    ends normally; it takes no event from the event channel, never reads
    the final text and waits for nothing, whatever these hold. *)
Theorem primary_channel_streams config provider params toolsMap r chunks :
  aiSdkTools params = Return toolsMap ->
  provider (streamTextArgs config params toolsMap) = Invoked r ->
  textStream r = {| items := chunks; finish := StreamDone |} ->
  chunks <> [] ->
  exists w,
    run (streamMessage config provider params) = (w, Normal ())
    /\ yielded w = chunks
    /\ consumed w = 0
    /\ textReads w = 0
    /\ clock w = 0%N.
Proof.
  intros Htools Hprovider Htext Hchunks. unfold run, streamMessage.
  rewrite Htools. unfold tryCatch, tiers. rewrite Hprovider.
  gen_unfold. rewrite Htext. simpl. rewrite readTextStream_run.
  destruct chunks as [|chunk chunks]; [done|]. simpl.
  eexists; split_and!; done.
Qed.


(** X6.  The event channel.  With an empty text channel and an event channel
    that has no [error] part, has at least one text delta and ends,
    [streamMessage] yields the texts of the deltas in their order,
    passing over the other events, and ends normally; every event was
    taken, and the final text is never read. *)
Theorem secondary_channel_streams config provider params toolsMap r :
  aiSdkTools params = Return toolsMap ->
  provider (streamTextArgs config params toolsMap) = Invoked r ->
  textStream r = {| items := []; finish := StreamDone |} ->
  Forall (fun part => Spec.isErrorPart part = false) (items (fullStream r)) ->
  finish (fullStream r) = StreamDone ->
  Spec.deltasOf (items (fullStream r)) <> [] ->
  exists w,
    run (streamMessage config provider params) = (w, Normal ())
    /\ yielded w = Spec.deltasOf (items (fullStream r))
    /\ consumed w = length (items (fullStream r))
    /\ textReads w = 0
    /\ clock w = 0%N.
Proof.
  intros Htools Hprovider Htext Hparts Hfinish Hdeltas.
  rewrite (streamMessage_secondary _ _ _ _ _ Htools Hprovider Htext).
  unfold tryCatch, secondaryTier. gen_unfold.
  rewrite (readFullStream_done _ _ _ _ Hparts), Hfinish.
  destruct (Spec.deltasOf (items (fullStream r))) as [|d ds]; [done|].
  simpl. eexists; split_and!; done.
Qed.


End Channels.

(** ** What a run reads and when it waits *)

Section Reads.
Context `{Engine}.

Ltac gen_unfold :=
  unfold mbind, gen_bind, mret, gen_ret, throw, yield, takeEvent, readText,
    setClock, currentTime.

Ltac race_step t c Ht Hc :=
  match goal with
  | |- context [awaitRace ?p ?ms ?timeout ?w] =>
      destruct (awaitRace_cases p ms timeout w) as (t & c & -> & Ht & Hc)
  end.

(** Either the settlement tier is entered, or the run reads no final
    text, waits for nothing and ends. *)
Lemma streamMessage_cases config provider params :
  (exists toolsMap r,
      aiSdkTools params = Return toolsMap
      /\ provider (streamTextArgs config params toolsMap) = Invoked r
      /\ Spec.silent r)
  \/ (textReads (run (streamMessage config provider params)).1 = 0
      /\ clock (run (streamMessage config provider params)).1 = 0%N
      /\ (run (streamMessage config provider params)).2 <> Hang).
Proof.
  destruct (aiSdkTools params) as [toolsMap|message] eqn:Htools;
    [|right; unfold run, streamMessage; by rewrite Htools].
  destruct (provider (streamTextArgs config params toolsMap))
    as [r|reason] eqn:Hprovider.
  2:{ right. unfold run, streamMessage. rewrite Htools.
      unfold tryCatch, tiers. rewrite Hprovider. done. }
  destruct (textStream r) as [chunks [|reason]] eqn:Htext.
  2:{ right. unfold run, streamMessage. rewrite Htools.
      unfold tryCatch, tiers. rewrite Hprovider. gen_unfold.
      rewrite Htext, readTextStream_run. done. }
  destruct chunks as [|chunk chunks].
  2:{ right. unfold run, streamMessage. rewrite Htools.
      unfold tryCatch, tiers. rewrite Hprovider. gen_unfold.
      rewrite Htext, readTextStream_run. done. }
  destruct (first_error_part (items (fullStream r)))
    as [Hparts|(before & error & after & Hfull & Hbefore)].
  2:{ right.
      rewrite (streamMessage_secondary _ _ _ _ _ Htools Hprovider Htext).
      unfold tryCatch, secondaryTier. gen_unfold. rewrite Hfull.
      rewrite readFullStream_error by done. done. }
  destruct (finish (fullStream r)) as [|reason] eqn:Hfinish.
  2:{ right.
      rewrite (streamMessage_secondary _ _ _ _ _ Htools Hprovider Htext).
      unfold tryCatch, secondaryTier. gen_unfold.
      rewrite (readFullStream_done _ _ _ _ Hparts), Hfinish. done. }
  destruct (Spec.deltasOf (items (fullStream r))) as [|d ds] eqn:Hdeltas.
  - left. by exists toolsMap, r.
  - right.
    rewrite (streamMessage_secondary _ _ _ _ _ Htools Hprovider Htext).
    unfold tryCatch, secondaryTier. gen_unfold.
    rewrite (readFullStream_done _ _ _ _ Hparts), Hfinish, Hdeltas. done.
Qed.

(** The settlement tier reads the final text at most twice and yields
    at most one fragment. *)
Lemma settlementBody_reads messages params r w :
  exists fragments,
    yielded (settlementBody messages params r w).1 = yielded w ++ fragments
    /\ length fragments <= 1
    /\ textReads (settlementBody messages params r w).1 <= textReads w + 2.
Proof.
  unfold settlementBody, settlementRaces. unfold mbind, gen_bind.
  race_step t1 c1 Ht1 Hc1.
  destruct c1 as [fr|reason|];
    [|exists []; simpl; rewrite app_nil_r; split_and!; [done|lia..]|done].
  unfold readText. race_step t2 c2 Ht2 Hc2.
  destruct c2 as [txt|reason|];
    [|exists []; simpl; rewrite app_nil_r; split_and!; [done|lia..]|done].
  race_step t3 c3 Ht3 Hc3.
  destruct c3 as [calls|reason|];
    [|exists []; simpl; rewrite app_nil_r; split_and!; [done|lia..]|done].
  unfold mret, gen_ret. cbv beta iota zeta.
  destruct (hasText txt).
  { eexists [_]. simpl. split_and!; [done|lia..]. }
  case_bool_decide;
    [|exists []; simpl; rewrite app_nil_r; split_and!; [done|lia..]].
  rewrite delayedText_run. simpl.
  destruct (finalText r (S (textReads w))) as [t4 text|t4 reason4|]; simpl;
    [destruct (hasText text)|..]; simpl;
    first [ eexists [_]; simpl; split_and!; [done|lia..]
          | exists []; simpl; rewrite app_nil_r; split_and!; [done|lia..] ].
Qed.

(** X8.  The final text is the last resort.  A run reads the final text at
    most twice; and when it reads it at all, neither channel gave a
    fragment or an error, so that the run yields at most one fragment:
    a run never yields streamed fragments and the final text both. *)
Theorem final_text_read_last config provider params :
  textReads (run (streamMessage config provider params)).1 <= 2
  /\ (0 < textReads (run (streamMessage config provider params)).1 ->
      length (yielded (run (streamMessage config provider params)).1) <= 1
      /\ exists toolsMap r,
           aiSdkTools params = Return toolsMap
           /\ provider (streamTextArgs config params toolsMap) = Invoked r
           /\ Spec.silent r).
Proof.
  destruct (streamMessage_cases config provider params)
    as [(toolsMap & r & Htools & Hprovider & Hsilent)|(Hreads & _ & _)].
  - rewrite (streamMessage_silent _ _ _ _ _ Htools Hprovider Hsilent).
    destruct (settlementBody_reads (assembleMessages params) params r
                (Spec.afterChannels r)) as (fragments & Hy & Hlen & Hreads).
    destruct (settlementBody _ _ _ _) as [w [n|inner|]]; simpl in *;
      (split; [lia|]); intros _; (split; [by rewrite Hy|]);
      by exists toolsMap, r.
  - rewrite Hreads. split; lia.
Qed.

End Reads.

(** ** Failures before the channels are read *)

Section Failures.
Context `{Engine}.

Import Construction.

(** The schemas on which the converter throws. *)
Lemma jsonSchemaToZod_illFormed schema :
  Spec.illFormed schema = true ->
  exists message, jsonSchemaToZod schema = ThrowTypeError message.
Proof.
  unfold Spec.illFormed. intros [Hshape Hill]%andb_true_iff.
  destruct schema as [| | | | | |o]; try done.
  rewrite jsonSchemaToZod_object, Hshape.
  apply (buildShape_throws _ _ []) in Hill as [message ->].
  by exists message.
Qed.


(** X10.  A tool schema that does not convert.  When the schema of a declared
    tool is ill-formed, [streamMessage] raises the [TypeError] of the
    conversion, not a classified error, before anything is yielded; the
    provider has no part in the outcome, which is the same for every
    provider. *)
Theorem ill_formed_schema_precedes_provider config params declared toolDef :
  tools params = Some declared ->
  toolDef ∈ declared ->
  Spec.illFormed (parameters toolDef) = true ->
  exists message,
    forall provider,
      run (streamMessage config provider params)
      = (start,
         Throw (NativeError "TypeError" message (Some (captureStack message))))
      /\ isAiSdkError
           (NativeError "TypeError" message (Some (captureStack message)))
         = false.
Proof.
  intros Htools Hin Hill.
  destruct (toolEntries_throws (contextData params) declared)
    as [message Hthrows].
  { intros Hall. rewrite Forall_forall in Hall.
    destruct (Hall toolDef Hin) as [zodSchema Hz].
    destruct (jsonSchemaToZod_illFormed _ Hill) as [message Hm].
    congruence. }
  exists message. intros provider. split; [|done].
  unfold run, streamMessage, aiSdkTools. by rewrite Htools, Hthrows.
Qed.

End Failures.

(** ** The registered tools and the prompt *)

Section Replay.

Lemma own_NoDup (o : object) k v :
  NoDup (keys o) -> (k, v) ∈ o -> own o k = Some v.
Proof.
  unfold keys. induction o as [|[k' v'] o IH]; intros Hdup Hin.
  - by apply elem_of_nil in Hin.
  - apply NoDup_cons in Hdup as [Hk' Hdup]. simpl.
    apply elem_of_cons in Hin as [[= <- <-]|Hin].
    + by rewrite decide_True.
    + rewrite decide_False; [by apply IH|].
      intros ->. apply Hk'. by apply (list_elem_of_fmap_2 fst _ (k, v)).
Qed.

(** What is under a name of the mapping is the tool of a declaration
    with that name. *)
Lemma registered_tool params mapping n registered :
  aiSdkTools params = Return (Some mapping) ->
  mapping !! n = Some registered ->
  forall call : unit,
    execute registered call = executeBody (contextData params) n.
Proof.
  unfold aiSdkTools. intros Hm Hlookup.
  destruct (tools params) as [declared|]; [|done].
  destruct (toolEntries (contextData params) declared) as [entries|] eqn:He;
    [|done].
  change (Return (Some (fromEntries entries)) = Return (Some mapping)) in Hm.
  assert (mapping = fromEntries entries) as -> by congruence. clear Hm.
  pose proof (fromEntries_tools _ _ _ n He) as Hn.
  destruct (Spec.lastNamed declared n) as [final|] eqn:Hlast;
    [|congruence].
  destruct Hn as (z & _ & Hfinal).
  assert (registered = Spec.toolFor (contextData params) final z) as ->
    by congruence.
  apply last_Some_elem_of, list_elem_of_filter in Hlast as [Hname _].
  intros call. simpl. by rewrite Hname.
Qed.

(** X11.  What a registered tool returns.  The [execute] of every tool of the
    mapping returns, at every call, neither [undefined] nor [null]: it
    returns the context data's own value under the tool's name when that
    is neither [null] nor [undefined] - also when it is [0], [false] or
    the empty string - and the sentinel when the value is [null] or
    [undefined]. *)
Theorem execute_never_nullish params mapping n registered (call : unit) :
  aiSdkTools params = Return (Some mapping) ->
  mapping !! n = Some registered ->
  execute registered call <> Data VUndefined
  /\ execute registered call <> Data VNull
  /\ (forall o v,
        contextData params = Some o -> own o n = Some v ->
        execute registered call
        = if nullish v then Data sentinel else Data v).
Proof.
  intros Hm Hlookup.
  rewrite (registered_tool _ _ _ _ Hm Hlookup), executeBody_cases.
  split_and!.
  - destruct (contextData params) as [o|]; [|done].
    destruct (own o n) as [[]|]; try done. by case_bool_decide.
  - destruct (contextData params) as [o|]; [|done].
    destruct (own o n) as [[]|]; try done. by case_bool_decide.
  - intros o v -> ->. done.
Qed.

(** X12.  The prompt and the tools agree.  For a key of the context data (a
    plain object: its keys are distinct) and a tool declared under that
    key, the prompt holds the tool-result turn that carries the key's
    value under the call id [pre-fetched-<key>], and the registered
    tool returns that same value when called - unless the value is
    [null] or [undefined]: the prompt then carries it, and the tool
    returns the sentinel. *)
Theorem replayed_value_is_returned params o declared toolDef mapping k v :
  contextData params = Some o ->
  NoDup (keys o) ->
  (k, v) ∈ o ->
  tools params = Some declared ->
  toolDef ∈ declared ->
  name toolDef = k ->
  aiSdkTools params = Return (Some mapping) ->
  {| role := tool;
     content := ToolResults [ {| resultCallId := "pre-fetched-" +:+ k;
                                 resultToolName := k;
                                 result := v |} ] |}
  ∈ assembleMessages params
  /\ exists registered,
       mapping !! k = Some registered
       /\ forall call : unit,
            execute registered call
            = if nullish v then Data sentinel else Data v.
Proof.
  intros Hcd Hdup Hin Htools HtoolDef Hname Hm. split.
  - rewrite assembleMessages_eq, Hcd.
    destruct o as [|entry o]; [by apply elem_of_nil in Hin|].
    apply elem_of_app. right. do 2 right.
    by apply (list_elem_of_fmap_2 preFetchedResult _ (k, v)).
  - destruct (every_declaration_registered _ _ _ _ Htools Hm HtoolDef)
      as (registered & Hlookup & Hexecute).
    rewrite Hname in Hlookup. exists registered. split; [done|].
    intros call. rewrite Hexecute, Hname, executeBody_cases, Hcd.
    by rewrite (own_NoDup _ _ _ Hdup Hin).
Qed.

(** X13.  The number of turns of the prompt: the history, the user turn and,
    for a non-empty context data, one assistant turn and one tool turn
    per key.  It is the number that the error messages report after
    ["Messages: "]. *)
Theorem prompt_length params :
  length (assembleMessages params)
  = length (default [] (conversationHistory params)) + 1
    + match contextData params with
      | Some ((_ :: _) as o) => 1 + length (keys o)
      | _ => 0
      end
  /\ requestShape (assembleMessages params) params
     = "Messages: " +:+ pretty (length (assembleMessages params))
       +:+ ", Tools: " +:+ pretty (lengthOr0 (tools params))
       +:+ ", ContextData keys: " +:+ contextKeys (contextData params).
Proof.
  split; [|done].
  rewrite assembleMessages_eq, length_app, length_fmap. simpl.
  destruct (contextData params) as [[|first o]|]; simpl; try lia.
  unfold keys. rewrite !length_fmap. lia.
Qed.

(** X14.  The user id has no effect: the same request sent for another user
    gives the provider the same arguments and the caller the same run. *)
Theorem userId_is_ignored `{Engine} config provider params userId' :
  assembleMessages (Notions.forUser userId' params) = assembleMessages params
  /\ aiSdkTools (Notions.forUser userId' params) = aiSdkTools params
  /\ (forall toolsMap,
        streamTextArgs config (Notions.forUser userId' params) toolsMap
        = streamTextArgs config params toolsMap)
  /\ run (streamMessage config provider (Notions.forUser userId' params))
     = run (streamMessage config provider params).
Proof. by destruct params. Qed.

End Replay.

(** ** Rejections in the settlement tier *)

Section Rejections.
Context `{Engine}.

(** X15.  A settlement value that is rejected in time.  After silent channels,
    a finish reason, a final text or a list of tool invocations that is
    rejected before its deadline makes [streamMessage] raise, at the time
    of the rejection and without a fragment, the error of the settlement
    tier's [catch] around the rejection, whose message ends with the
    message of a rejected [Error] and with ["Unknown error"] for any
    other rejected value.  It does so although the final text is in
    hand, when the finish reason or the tool invocations are rejected. *)
Theorem settlement_rejection_surfaced config provider params toolsMap r :
  aiSdkTools params = Return toolsMap ->
  provider (streamTextArgs config params toolsMap) = Invoked r ->
  Spec.silent r ->
  (forall t1 reason,
      finishReason r = Rejected t1 reason -> (t1 < 5000)%N ->
      Notions.raisesAround (run (streamMessage config provider params))
                           params reason t1)
  /\ (forall t1 fr t2 reason,
        finishReason r = Fulfilled t1 fr -> (t1 < 5000)%N ->
        finalText r 0 = Rejected t2 reason -> (t2 < t1 + 30000)%N ->
        Notions.raisesAround (run (streamMessage config provider params))
                             params reason (N.max t1 t2))
  /\ (forall t1 fr t2 txt t3 reason,
        finishReason r = Fulfilled t1 fr -> (t1 < 5000)%N ->
        finalText r 0 = Fulfilled t2 txt -> (t2 < t1 + 30000)%N ->
        toolCalls r = Rejected t3 reason -> (t3 < N.max t1 t2 + 30000)%N ->
        Notions.raisesAround (run (streamMessage config provider params))
                             params reason (N.max (N.max t1 t2) t3)).
Proof.
  intros Htools Hprovider Hsilent.
  rewrite (streamMessage_silent _ _ _ _ _ Htools Hprovider Hsilent).
  unfold settlementBody, settlementRaces. unfold mbind, gen_bind.
  split_and!.
  - intros t1 reason Hfr H1.
    rewrite (awaitRace_rejected _ _ _ _ _ _ Hfr) by done.
    eexists _, _; split_and!; try done. simpl. by rewrite N.max_0_l.
  - intros t1 fr t2 reason Hfr H1 Htxt H2.
    rewrite (awaitRace_fulfilled _ _ _ _ _ _ Hfr) by done.
    unfold readText.
    rewrite (awaitRace_rejected _ _ _ _ t2 reason)
      by (simpl; by rewrite ?N.max_0_l).
    eexists _, _; split_and!; try done. simpl. by rewrite N.max_0_l.
  - intros t1 fr t2 txt t3 reason Hfr H1 Htxt H2 Hcalls H3.
    rewrite (awaitRace_fulfilled _ _ _ _ _ _ Hfr) by done.
    unfold readText.
    rewrite (awaitRace_fulfilled _ _ _ _ t2 txt)
      by (simpl; by rewrite ?N.max_0_l).
    rewrite (awaitRace_rejected _ _ _ _ t3 reason)
      by (simpl; by rewrite ?N.max_0_l).
    eexists _, _; split_and!; try done. simpl. by rewrite N.max_0_l.
Qed.

(** X16.  Nothing was produced.  After silent channels, when the three values
    are in hand, the final text is empty after trimming and there is no
    tool invocation (an empty list, or none at all), [streamMessage]
    raises the error of the settlement tier's [catch] around the
    empty-stream error, whose message reports the shape of the request,
    the finish reason and [ToolCalls: 0]; the final text was read once. *)
Theorem nothing_produced_error config provider params toolsMap r fr txt
    calls t :
  aiSdkTools params = Return toolsMap ->
  provider (streamTextArgs config params toolsMap) = Invoked r ->
  Spec.silent r ->
  Spec.settledInTime r fr txt calls t ->
  hasText txt = false ->
  lengthOr0 calls = 0 ->
  Notions.raisesAround
    (run (streamMessage config provider params)) params
    (new ("AI SDK stream completed without generating any chunks or text. "
          +:+ requestShape (assembleMessages params) params
          +:+ ", FinishReason: " +:+ orUnknown fr
          +:+ ", ToolCalls: 0")
         (Thrown VUndefined) VUndefined)
    t
  /\ textReads (run (streamMessage config provider params)).1 = 1.
Proof.
  intros Htools Hprovider Hsilent Hsettled Htxt Hcalls.
  rewrite (streamMessage_silent _ _ _ _ _ Htools Hprovider Hsilent).
  rewrite (settlementBody_races _ _ _ (Spec.afterChannels r) _ _ _ _
             eq_refl eq_refl Hsettled).
  rewrite Htxt, Hcalls. simpl. unfold emptyStreamMessage. rewrite Hcalls.
  split; [|done]. eexists _, _; split_and!; done.
Qed.

End Rejections.

(** ** What the converter looks at *)

Section Converter.

Ltac fallible_unfold := unfold mbind, fallible_bind, mret, fallible_ret.

Lemma objectSchema_converts properties required :
  jsonSchemaToZod (Notions.objectSchema properties required)
  = zodShape ← buildShape properties (VArr required) [];
    mret (ZodObject zodShape passthrough).
Proof. done. Qed.

Lemma buildShape_required properties required1 required2 :
  (forall k, k ∈ properties.*1 ->
     Spec.isRequired required1 k = Spec.isRequired required2 k) ->
  forall zodShape,
    buildShape properties (VArr required1) zodShape
    = buildShape properties (VArr required2) zodShape.
Proof.
  induction properties as [|[k propSchema] properties IH];
    intros Hagree zodShape; [done|].
  simpl. destruct (zodTypeOf propSchema) as [t|message]; [|done].
  fallible_unfold. simpl.
  fold (Spec.isRequired required1 k). fold (Spec.isRequired required2 k).
  rewrite (Hagree k) by (simpl; by left).
  apply IH. intros k' Hk'. apply Hagree. simpl. by right.
Qed.

(** The validator of a property depends on its declared type and, for
    an array, on the declared type of the items. *)
Lemma zodTypeOf_sameType propSchema1 propSchema2 :
  Notions.sameType propSchema1 propSchema2 ->
  zodTypeOf propSchema1 = zodTypeOf propSchema2.
Proof.
  intros (H1 & H2 & Htype & Hitems). unfold zodTypeOf.
  rewrite !read_part by done. fallible_unfold. simpl fieldName.
  rewrite Htype.
  assert (forall propSchema,
             (if nullish (Spec.part propSchema "items")
              then Return VUndefined
              else read (Spec.part propSchema "items") type_)
             = Return (Spec.part (Spec.part propSchema "items") "type"))
    as Hread.
  { intros propSchema.
    destruct (nullish (Spec.part propSchema "items")) eqn:Hnull.
    - by rewrite part_nullish.
    - by rewrite read_part. }
  by rewrite !Hread, Hitems.
Qed.

Lemma buildShape_sameTypes properties1 properties2 required :
  Notions.sameTypes properties1 properties2 ->
  forall zodShape,
    buildShape properties1 required zodShape
    = buildShape properties2 required zodShape.
Proof.
  induction 1 as [|[k1 p1] [k2 p2] properties1 properties2 [Hk Hp] _ IH];
    intros zodShape; [done|].
  simpl in Hk, Hp. subst k2. simpl.
  rewrite (zodTypeOf_sameType _ _ Hp).
  destruct (zodTypeOf p2) as [t|message]; [|done].
  fallible_unfold. simpl.
  destruct (requiredIncludes required k1) as [b|message]; [|done].
  apply IH.
Qed.

Lemma put_keys {A} (o : list (string * A)) k v k' :
  k' ∈ (put o k v).*1 <-> k' = k \/ k' ∈ o.*1.
Proof.
  induction o as [|[k0 v0] o IH]; simpl.
  - rewrite list_elem_of_singleton. split; [by left|].
    by intros [?|?%elem_of_nil].
  - destruct (decide (k0 = k)) as [->|Hne]; simpl.
    + rewrite !elem_of_cons. tauto.
    + rewrite !elem_of_cons, IH. tauto.
Qed.

Lemma buildShape_keys properties required :
  forall zodShape shape,
    buildShape properties required zodShape = Return shape ->
    forall k,
      k ∈ shape.*1
      <-> k ∈ zodShape.*1 \/ (k ∈ properties.*1 /\ k <> "__proto__").
Proof.
  induction properties as [|[k0 propSchema] properties IH];
    intros zodShape shape Hshape k.
  - injection Hshape as <-. simpl. rewrite elem_of_nil. tauto.
  - simpl in Hshape.
    destruct (zodTypeOf propSchema) as [t|message]; [|done].
    destruct (requiredIncludes required k0) as [b|message]; [|done].
    revert Hshape. fallible_unfold. simpl. intros Hshape.
    rewrite (IH _ _ Hshape k). unfold assign. simpl.
    rewrite elem_of_cons.
    destruct (decide (k0 = "__proto__")) as [->|Hproto].
    + split; [|tauto]. intros [?|[Hk ?]]; [by left|right].
      split; [by right|done].
    + rewrite put_keys. split.
      * intros [[->|?]|[? ?]]; auto.
      * intros [?|[[->|?] ?]]; auto.
Qed.

(** X17.  Undeclared names in [required] count for nothing.  The converter
    asks of [required] only whether it contains the declared names: two
    schemas with the same properties, whose [required] lists contain
    the same declared names, give the same validator, whatever else the
    lists contain. *)
Theorem undeclared_required_ignored properties required1 required2 :
  (forall k, k ∈ properties.*1 ->
     Spec.isRequired required1 k = Spec.isRequired required2 k) ->
  jsonSchemaToZod (Notions.objectSchema properties required1)
  = jsonSchemaToZod (Notions.objectSchema properties required2).
Proof.
  intros Hagree. rewrite !objectSchema_converts.
  by rewrite (buildShape_required _ _ _ Hagree).
Qed.

(** X18.  Only the declared types are enforced.  Two schemas whose properties
    have the same names, the same declared types and, for arrays, the
    same declared item types give the same validator: a constraint
    written in a property schema beside its type ([enum], [minimum],
    [format], nested [properties] and [required], ...) is never
    checked. *)
Theorem only_declared_types_checked properties1 properties2 required :
  Notions.sameTypes properties1 properties2 ->
  jsonSchemaToZod (Notions.objectSchema properties1 required)
  = jsonSchemaToZod (Notions.objectSchema properties2 required).
Proof.
  intros Hsame. rewrite !objectSchema_converts.
  by rewrite (buildShape_sameTypes _ _ _ Hsame).
Qed.

(** X19.  Every validator the converter returns is an object validator in
    pass-through mode: it rejects what is not a plain object, and it
    has a check for each declared property of an object-shaped schema,
    except [__proto__], and for nothing else. *)
Theorem validators_are_passthrough_objects schema validator :
  jsonSchemaToZod schema = Return validator ->
  exists shape,
    validator = ZodObject shape passthrough
    /\ (forall k,
          k ∈ shape.*1
          <-> Spec.objectShaped schema = true
              /\ k ∈ (Spec.declared schema).*1
              /\ k <> "__proto__")
    /\ (forall v, (forall o, v <> VObj o) -> safeParse validator v = false).
Proof.
  intros Hvalidator.
  destruct (Spec.objectShaped schema) eqn:Hshape.
  - destruct schema as [| | | | | |o]; try done.
    rewrite jsonSchemaToZod_object, Hshape in Hvalidator.
    destruct (buildShape _ _ _) as [shape|message] eqn:Hbuild; [|done].
    injection Hvalidator as <-. exists shape. split_and!; [done| |].
    + intros k. rewrite (buildShape_keys _ _ _ _ Hbuild k). simpl.
      rewrite elem_of_nil. tauto.
    + intros [] Hv; try done. by destruct (Hv props).
  - rewrite jsonSchemaToZod_fallback in Hvalidator by done.
    injection Hvalidator as <-. exists []. split_and!; [done| |].
    + intros k. simpl. rewrite elem_of_nil. split; [done|]. by intros [? _].
    + intros [] Hv; try done. by destruct (Hv props).
Qed.

End Converter.

(** ** Every error raised from the tiers is classified *)

Section Raised.
Context `{Engine}.


End Raised.

(** ** The further properties at sample inputs *)

Section FurtherRuns.

#[local] Existing Instance Sample.engine.

Import Construction.


Lemma primary_channel_streams_witness :
  exists w,
    run (streamMessage Sample.config (Sample.answers Inputs.streaming)
                       Sample.plain)
    = (w, Normal ())
    /\ yielded w = ["Hello"; " world"]
    /\ consumed w = 0
    /\ textReads w = 0
    /\ clock w = 0%N.
Proof.
  apply (primary_channel_streams Sample.config
           (Sample.answers Inputs.streaming) Sample.plain None
           Inputs.streaming ["Hello"; " world"]);
    [reflexivity | reflexivity | reflexivity | discriminate].
Defined.


Lemma secondary_channel_streams_witness :
  exists w,
    run (streamMessage Sample.config (Sample.answers Inputs.deltas)
                       Sample.plain)
    = (w, Normal ())
    /\ yielded w = Spec.deltasOf (items (fullStream Inputs.deltas))
    /\ consumed w = length (items (fullStream Inputs.deltas))
    /\ textReads w = 0
    /\ clock w = 0%N.
Proof.
  apply (secondary_channel_streams Sample.config
           (Sample.answers Inputs.deltas) Sample.plain None Inputs.deltas);
    [reflexivity | reflexivity | reflexivity | repeat constructor
    | reflexivity | discriminate].
Defined.



Lemma ill_formed_schema_precedes_provider_witness :
  exists message,
    forall provider,
      run (streamMessage Sample.config provider Inputs.brokenTool)
      = (start,
         Throw (NativeError "TypeError" message (Some (captureStack message))))
      /\ isAiSdkError
           (NativeError "TypeError" message (Some (captureStack message)))
         = false.
Proof.
  apply (ill_formed_schema_precedes_provider Sample.config Inputs.brokenTool
           [ Sample.getNews;
             {| name := "broken"; description := "";
                parameters := Sample.nullPropertySchema |} ]
           {| name := "broken"; description := "";
              parameters := Sample.nullPropertySchema |});
    [reflexivity | repeat constructor | reflexivity].
Defined.

Lemma execute_never_nullish_witness :
  exists mapping registered,
    aiSdkTools Inputs.zeroPrice = Return (Some mapping)
    /\ mapping !! "getPrice" = Some registered
    /\ execute registered () = Data (VNum (Finite 0 0))
    /\ execute registered () <> Data VUndefined
    /\ execute registered () <> Data VNull.
Proof.
  eexists _, _. split; [reflexivity|]. split; [reflexivity|].
  destruct (execute_never_nullish Inputs.zeroPrice _ "getPrice" _ ()
              eq_refl eq_refl) as (Hundefined & Hnull & Hvalue).
  split_and!; [|exact Hundefined|exact Hnull].
  apply (Hvalue [("getPrice", VNum (Finite 0 0))] (VNum (Finite 0 0)));
    reflexivity.
Defined.

Lemma replayed_value_is_returned_witness :
  {| role := tool;
     content := ToolResults [ {| resultCallId := "pre-fetched-" +:+ "getPrice";
                                 resultToolName := "getPrice";
                                 result := VNum (Finite 0 0) |} ] |}
  ∈ assembleMessages Inputs.zeroPrice
  /\ exists mapping registered,
       aiSdkTools Inputs.zeroPrice = Return (Some mapping)
       /\ mapping !! "getPrice" = Some registered
       /\ forall call : unit,
            execute registered call = Data (VNum (Finite 0 0)).
Proof.
  destruct (replayed_value_is_returned Inputs.zeroPrice
              [("getPrice", VNum (Finite 0 0))] [Sample.getPriceV1]
              Sample.getPriceV1
              (fromEntries
                 [("getPrice",
                   Spec.toolFor (contextData Inputs.zeroPrice)
                     Sample.getPriceV1
                     (ZodObject [("symbol", ZodString)] passthrough))])
              "getPrice" (VNum (Finite 0 0)))
    as (Hprompt & registered & Hlookup & Hexecute);
    [reflexivity | repeat constructor; by intros ?%elem_of_nil
    | repeat constructor | reflexivity | repeat constructor | reflexivity
    | reflexivity |].
  split; [exact Hprompt|]. by eexists _, registered.
Defined.

Lemma settlement_rejection_surfaced_witness :
  Notions.raisesAround
    (run (streamMessage Sample.config
                        (Sample.answers Inputs.rejectedFinishReason)
                        Sample.plain))
    Sample.plain Inputs.socketClosed 10.
Proof.
  destruct (settlement_rejection_surfaced Sample.config
              (Sample.answers Inputs.rejectedFinishReason) Sample.plain None
              Inputs.rejectedFinishReason)
    as (Hfinish & _); try reflexivity.
  - repeat split. constructor.
  - apply Hfinish; [reflexivity | done].
Defined.

Lemma nothing_produced_error_witness :
  Notions.raisesAround
    (run (streamMessage Sample.config (Sample.answers Sample.nothing)
                        Sample.plain))
    Sample.plain
    (new ("AI SDK stream completed without generating any chunks or text. "
          +:+ requestShape (assembleMessages Sample.plain) Sample.plain
          +:+ ", FinishReason: " +:+ orUnknown (Some "stop")
          +:+ ", ToolCalls: 0")
         (Thrown VUndefined) VUndefined)
    0
  /\ textReads (run (streamMessage Sample.config
                                   (Sample.answers Sample.nothing)
                                   Sample.plain)).1 = 1.
Proof.
  apply (nothing_produced_error Sample.config (Sample.answers Sample.nothing)
           Sample.plain None Sample.nothing (Some "stop") (Some "")
           (Some []) 0%N); try reflexivity.
  - apply silent_settled.
  - apply (settledInTime_settled (Some "stop") (fun _ => Some "") []).
Defined.

Lemma undeclared_required_ignored_witness :
  jsonSchemaToZod
    (Notions.objectSchema [("symbol", VObj [("type", VStr "string")])]
                          [VStr "symbol"; VStr "currency"; VNull])
  = jsonSchemaToZod
      (Notions.objectSchema [("symbol", VObj [("type", VStr "string")])]
                            [VStr "symbol"]).
Proof.
  apply undeclared_required_ignored.
  intros k [->|[]%elem_of_nil]%elem_of_cons. reflexivity.
Defined.

Lemma only_declared_types_checked_witness :
  jsonSchemaToZod
    (Notions.objectSchema
       [("side", VObj [("type", VStr "string");
                       ("enum", VArr [VStr "buy"; VStr "sell"])])]
       [VStr "side"])
  = jsonSchemaToZod
      (Notions.objectSchema [("side", VObj [("type", VStr "string")])]
                            [VStr "side"]).
Proof.
  apply only_declared_types_checked.
  repeat constructor.
Defined.

Lemma validators_are_passthrough_objects_witness :
  exists shape,
    ZodObject [("name", ZodString);
               ("tags", ZodOptional (ZodArray ZodNumber))] passthrough
    = ZodObject shape passthrough
    /\ (forall k,
          k ∈ shape.*1
          <-> Spec.objectShaped Sample.nameAndTags = true
              /\ k ∈ (Spec.declared Sample.nameAndTags).*1
              /\ k <> "__proto__")
    /\ (forall v,
          (forall o, v <> VObj o) ->
          safeParse (ZodObject [("name", ZodString);
                                ("tags", ZodOptional (ZodArray ZodNumber))]
                               passthrough) v
          = false).
Proof.
  apply (validators_are_passthrough_objects Sample.nameAndTags).
  reflexivity.
Defined.


End FurtherRuns.
